(** * isx_stream: geometry, frame-header decoding and sequence tracking

    A shallow embedding of [isx_stream.py] (class [isx_scope]) and the
    properties of its geometry computation ([isx_set_defaults]), its
    frame-header decoder and sequence tracker ([update_frame_stats]) and
    its per-frame entry point ([get_frame]).

    Conventions of the embedding.
    - Python [int] and the numpy integers of the decoder are [Z].  The
      samples of a frame are numpy [uint16] scalars; combined with a
      Python [int] operand ([>> 4], [<< 8], ...) a numpy scalar is promoted
      to the platform integer ([int64]) under the promotion rules the
      module was written for, and none of the values that occur (below
      [2^36]) leaves the [int64] range, so the arithmetic is exact.
    - [//] is Python floor division: [Z.div], raising [ZeroDivisionError]
      on a zero divisor.
    - Exceptions are values of [result]; a [try ... except Exception]
      block is a [match] on the result of its body.
    - The object [self] is the record [isx_scope], threaded explicitly.
    - The frame read from the capture is a two-dimensional [uint8] array:
      a list of rows of bytes.  The capture itself, the pipeline strings
      and the console output are not modelled. *)

From Stdlib Require Import ZArith Lia Bool.
From Stdlib.Strings Require Import Byte.
From stdpp Require Import base list.

Local Open Scope Z_scope.

(** ** Exceptions and results *)

Inductive exn : Type :=
| ZeroDivisionError
| IndexError
| ValueError.

Inductive result (A : Type) : Type :=
| Ok (a : A)
| Raise (e : exn).

Arguments Ok {A} a.
Arguments Raise {A} e.

Definition bind {A B : Type} (m : result A) (k : A -> result B) : result B :=
  match m with
  | Ok a => k a
  | Raise e => Raise e
  end.

Notation "'do' x <- m ;; k" := (bind m (fun x => k))
  (at level 10, x name, m at level 99, k at level 200).

(** Python's [a // b] on integers. *)
Definition floordiv (a b : Z) : result Z :=
  if b =? 0 then Raise ZeroDivisionError else Ok (a / b).

Infix "//" := floordiv (at level 40, no associativity).

(** ** numpy arrays *)

(** [a[i]] for an integer [i] on the first axis: negative indices count
    from the end, anything out of range raises [IndexError]. *)
Definition np_index {A : Type} (a : list A) (i : Z) : result A :=
  let n := Z.of_nat (length a) in
  let j := if i <? 0 then i + n else i in
  if (0 <=? j) && (j <? n)
  then match a !! Z.to_nat j with
       | Some x => Ok x
       | None => Raise IndexError
       end
  else Raise IndexError.

(** [a[start:stop]] on the first axis: bounds are clipped, never raises. *)
Definition np_slice {A : Type} (a : list A) (start stop : Z) : list A :=
  let n := Z.of_nat (length a) in
  let clip i := if i <? 0 then Z.max (i + n) 0 else Z.min i n in
  let lo := clip start in
  let hi := clip stop in
  take (Z.to_nat (hi - lo)) (drop (Z.to_nat lo) a).

(** One [uint16] sample from two consecutive bytes (low byte first). *)
Definition sample_of_bytes (lo hi : byte) : Z :=
  Z.of_N (Byte.to_N lo) + 256 * Z.of_N (Byte.to_N hi).

(** A row of bytes reinterpreted as [uint16]; numpy raises [ValueError]
    when the row's size is not a multiple of the new item size. *)
Fixpoint view_row (r : list byte) : result (list Z) :=
  match r with
  | [] => Ok []
  | [_] => Raise ValueError
  | lo :: hi :: r' =>
      do l <- view_row r' ;; Ok (sample_of_bytes lo hi :: l)
  end.

(** [raw.view(dtype=np.uint16)]. *)
Fixpoint view_uint16 (raw : list (list byte)) : result (list (list Z)) :=
  match raw with
  | [] => Ok []
  | r :: raw' =>
      do r16 <- view_row r ;;
      do rest <- view_uint16 raw' ;;
      Ok (r16 :: rest)
  end.

(** ** The object state *)

(** The attributes [isx_set_defaults] derives from the downsample factor. *)
Record geometry : Type := {
  stream_width : Z;
  stream_height : Z;
  frame_width : Z;
  frame_height : Z;
  frame_size_in_bytes : Z;
  isx_header_offset : Z;
  isx_footer_offset : Z;
  header_row_with_meta : Z;
  frame_counter_offset : Z;
  frame_record_flag_offset : Z;
  frame_record_flag_value : Z
}.

(** The dictionary [frame_statistics]. *)
Record statistics : Type := {
  missing_frames_range : list Z;
  seq_id : Z;
  isxd_record : bool
}.

(** A frame of 16-bit samples, row by row. *)
Abbreviation frame16_t := (list (list Z)).

Record isx_scope : Type := {
  geom : geometry;
  prev_frame_seq_id : Z;
  sync_with_recording : bool;
  file_storage : bool;
  file_pointer : list frame16_t;   (* the frames written so far *)
  frame_statistics : statistics
}.

(** ** [isx_set_defaults] *)

Definition isx_set_defaults (ds_factor : Z) : result (geometry * Z) :=
  let isx_default_width := 1280 in
  let isx_default_height := 800 in
  let isx_meta_header_length := 2 in
  let isx_meta_footer_length := 2 in
  let isx_meta_fc_offset := 1258 in
  let isx_meta_ad_flag_offset := 1257 in
  let size16 := 2 in
  let size32 := 4 in
  let isx_meta_header_bytes := isx_meta_header_length * isx_default_width * size16 in
  let isx_meta_footer_bytes := isx_meta_footer_length * isx_default_width * size16 in
  let isx_meta_total_bytes := isx_meta_header_bytes + isx_meta_footer_bytes in
  do self_stream_width <- isx_default_width // ds_factor ;;
  do stream_height <- isx_default_height // ds_factor ;;
  do header_footer_line_count_16bit <- isx_meta_total_bytes // self_stream_width ;;
  do header_footer_line_count_32bit <- (header_footer_line_count_16bit * size16) // size32 ;;
  let self_stream_height := stream_height + header_footer_line_count_32bit in
  do ratio <- size32 // size16 ;;
  let self_frame_width := self_stream_width * ratio in
  let self_frame_height := self_stream_height * ratio in
  let self_frame_size_in_bytes := self_frame_width * self_frame_height in
  do self_isx_header_offset <- isx_meta_header_bytes // (size16 * self_stream_width) ;;
  let self_isx_footer_offset := stream_height + self_isx_header_offset in
  do self_header_row_with_meta <- isx_meta_fc_offset // self_stream_width ;;
  let self_frame_counter_offset :=
    isx_meta_fc_offset - (self_header_row_with_meta * self_stream_width) in
  let self_frame_record_flag_offset :=
    isx_meta_ad_flag_offset - (self_header_row_with_meta * self_stream_width) in
  let self_frame_record_flag_value := 0xAD0 in
  let self_prev_frame_seq_id := 0 in
  Ok ({| stream_width := self_stream_width;
         stream_height := self_stream_height;
         frame_width := self_frame_width;
         frame_height := self_frame_height;
         frame_size_in_bytes := self_frame_size_in_bytes;
         isx_header_offset := self_isx_header_offset;
         isx_footer_offset := self_isx_footer_offset;
         header_row_with_meta := self_header_row_with_meta;
         frame_counter_offset := self_frame_counter_offset;
         frame_record_flag_offset := self_frame_record_flag_offset;
         frame_record_flag_value := self_frame_record_flag_value |},
      self_prev_frame_seq_id).

(** [__init__], without the pipeline strings: the defaults, the two
    flags, an empty storage file and the initial statistics. *)
Definition init (downsample_factor : Z) (file_storage sync_with_recording : bool)
  : result isx_scope :=
  do d <- isx_set_defaults downsample_factor ;;
  Ok {| geom := fst d;
        prev_frame_seq_id := snd d;
        sync_with_recording := sync_with_recording;
        file_storage := file_storage;
        file_pointer := [];
        frame_statistics :=
          {| missing_frames_range := []; seq_id := 0; isxd_record := false |} |}.

(** ** [update_frame_stats] *)

Definition set_stats (self : isx_scope) (st : statistics) : isx_scope :=
  {| geom := geom self;
     prev_frame_seq_id := prev_frame_seq_id self;
     sync_with_recording := sync_with_recording self;
     file_storage := file_storage self;
     file_pointer := file_pointer self;
     frame_statistics := st |}.

Definition set_prev (self : isx_scope) (p : Z) : isx_scope :=
  {| geom := geom self;
     prev_frame_seq_id := p;
     sync_with_recording := sync_with_recording self;
     file_storage := file_storage self;
     file_pointer := file_pointer self;
     frame_statistics := frame_statistics self |}.

Definition file_write (self : isx_scope) (frame : frame16_t) : isx_scope :=
  {| geom := geom self;
     prev_frame_seq_id := prev_frame_seq_id self;
     sync_with_recording := sync_with_recording self;
     file_storage := file_storage self;
     file_pointer := file_pointer self ++ [frame];
     frame_statistics := frame_statistics self |}.

(** The body of the [try] block: the five reads come first, the two
    assignments to [self] after them. *)
Definition update_frame_stats_body (self : isx_scope) (frame_header_row : list Z)
  : result (bool * isx_scope) :=
  let g := geom self in
  do s0 <- np_index frame_header_row (frame_counter_offset g) ;;
  do s1 <- np_index frame_header_row (frame_counter_offset g + 1) ;;
  do s2 <- np_index frame_header_row (frame_counter_offset g + 2) ;;
  do s3 <- np_index frame_header_row (frame_counter_offset g + 3) ;;
  let curr_frame_seq_id :=
    Z.lor (Z.lor (Z.lor (Z.shiftl (Z.shiftr s0 4) 0)
                        (Z.shiftl (Z.shiftr s1 4) 8))
                 (Z.shiftl (Z.shiftr s2 4) 16))
          (Z.shiftl (Z.shiftr s3 4) 24) in
  do frame_record_byte <- np_index frame_header_row (frame_record_flag_offset g) ;;
  let curr_frame_is_recording := frame_record_byte =? frame_record_flag_value g in
  let stats :=
    {| missing_frames_range := [];
       seq_id := curr_frame_seq_id;
       isxd_record := curr_frame_is_recording |} in
  let stats :=
    if negb (prev_frame_seq_id self =? 0)
       && negb (curr_frame_seq_id =? prev_frame_seq_id self + 1)
    then {| missing_frames_range :=
              [prev_frame_seq_id self + 1; curr_frame_seq_id - 1];
            seq_id := seq_id stats;
            isxd_record := isxd_record stats |}
    else stats in
  Ok (curr_frame_is_recording, set_prev (set_stats self stats) curr_frame_seq_id).

Definition update_frame_stats (self : isx_scope) (frame_header_row : list Z)
  : bool * isx_scope :=
  match update_frame_stats_body self frame_header_row with
  | Ok r => r
  | Raise _ => (false, self)
  end.

(** ** [get_frame] *)

(** [None] is the pair [(None, None)]; [Some (st, f)] the pair of the
    statistics and the frame. *)
Definition get_frame_body (self : isx_scope) (ret : bool) (raw : list (list byte))
  : result (option (statistics * frame16_t) * isx_scope) :=
  if negb ret then Ok (None, self)
  else
    do frame16 <- view_uint16 raw ;;
    let frame :=
      np_slice frame16 (isx_header_offset (geom self)) (isx_footer_offset (geom self)) in
    do header_row <- np_index frame16 (header_row_with_meta (geom self)) ;;
    let '(isxd_record_status, self) := update_frame_stats self header_row in
    if sync_with_recording self && negb isxd_record_status
    then Ok (None, self)
    else
      let self := if file_storage self then file_write self frame else self in
      Ok (Some (frame_statistics self, frame), self).

Definition get_frame (self : isx_scope) (ret : bool) (raw : list (list byte))
  : option (statistics * frame16_t) * isx_scope :=
  match get_frame_body self ret raw with
  | Ok r => r
  | Raise _ => (None, self)
  end.

(** The outcome for a frame whose header row could be fetched: the gate
    and the storage, after [update_frame_stats]. *)
Definition deliver (self : isx_scope) (frame16 : frame16_t) (row : list Z)
  : option (statistics * frame16_t) * isx_scope :=
  let frame :=
    np_slice frame16 (isx_header_offset (geom self)) (isx_footer_offset (geom self)) in
  let r := update_frame_stats self row in
  if sync_with_recording self && negb (fst r)
  then (None, snd r)
  else (Some (frame_statistics (snd r), frame),
        if file_storage self then file_write (snd r) frame else snd r).

(** The number of bytes of a raw frame. *)
Definition raw_size (raw : list (list byte)) : Z :=
  Z.of_nat (length (concat raw)).

(** ** Checks on a geometry *)

Definition in_range (x n : Z) : bool := (0 <=? x) && (x <? n).

(** The invariant of a geometry, as a decidable check: the three row
    indices lie in [[0, stream_height)], the counter columns (all four)
    and the flag column lie in [[0, stream_width)], and the frame size is
    the product of the frame dimensions. *)
Definition geometry_ok (g : geometry) : bool :=
  in_range (isx_header_offset g) (stream_height g)
  && in_range (isx_footer_offset g) (stream_height g)
  && in_range (header_row_with_meta g) (stream_height g)
  && in_range (frame_counter_offset g) (stream_width g)
  && in_range (frame_counter_offset g + 3) (stream_width g)
  && in_range (frame_record_flag_offset g) (stream_width g)
  && (frame_size_in_bytes g =? frame_width g * frame_height g).

Definition divides_native (ds : Z) : bool :=
  (1280 mod ds =? 0) && (800 mod ds =? 0).

Definition geometry_check (ds : Z) : bool :=
  if divides_native ds
  then match isx_set_defaults ds with
       | Ok (g, p) => geometry_ok g && (p =? 0)
       | Raise _ => false
       end
  else true.

(** ** The counter formula of the specification *)

(** [(s0>>4) | ((s1>>4)<<8) | ((s2>>4)<<16) | ((s3>>4)<<24)] over the
    integers, nothing truncated. *)
Definition counter_exact (s0 s1 s2 s3 : Z) : Z :=
  Z.lor (Z.lor (Z.lor (Z.shiftr s0 4)
                      (Z.shiftl (Z.shiftr s1 4) 8))
               (Z.shiftl (Z.shiftr s2 4) 16))
        (Z.shiftl (Z.shiftr s3 4) 24).

(** The same formula in unsigned 32-bit arithmetic: every intermediate
    value is reduced modulo [2^32]. *)
Definition u32 (x : Z) : Z := x mod 2 ^ 32.

Definition counter_u32 (s0 s1 s2 s3 : Z) : Z :=
  u32 (Z.lor (Z.lor (Z.lor (u32 (Z.shiftr s0 4))
                           (u32 (Z.shiftl (Z.shiftr s1 4) 8)))
                    (u32 (Z.shiftl (Z.shiftr s2 4) 16)))
             (u32 (Z.shiftl (Z.shiftr s3 4) 24))).

(** ** The gap policy of the specification *)

(** No range when the previous counter is the sentinel [0] or the counter
    is the successor of the previous one, otherwise the pair
    [(prev + 1, c - 1)]. *)
Definition missing_range (prev c : Z) : list Z :=
  if (prev =? 0) || (c =? prev + 1) then [] else [prev + 1; c - 1].

(** ** Synthetic frames *)

(** The encoder of the round-trip property: it follows the layout the
    decoder reads, and is not part of the module. *)

Definition byte_of_Z (z : Z) : byte :=
  match Byte.of_N (Z.to_N (z mod 256)) with
  | Some b => b
  | None => x00
  end.

(** A sample as two bytes, low byte first. *)
Definition bytes_of_sample (s : Z) : list byte :=
  [byte_of_Z s; byte_of_Z (s / 256)].

Definition raw_of_frame16 (f : frame16_t) : list (list byte) :=
  map (fun row => flat_map bytes_of_sample row) f.

(** Byte [i] of a counter. *)
Definition counter_byte (counter : Z) (i : Z) : Z :=
  Z.land (Z.shiftr counter (8 * i)) 0xFF.

(** The meta row with the counter and the flag written into it: counter
    byte [i] as the sample [byte_i << 4] at column [frame_counter_offset
    + i], and at column [frame_record_flag_offset] the sample [0xAD0]
    when the flag is set, [idle] otherwise. *)
Definition encode_row (g : geometry) (counter : Z) (flag : bool) (idle : Z)
    (row : list Z) : list Z :=
  let c := frame_counter_offset g in
  <[Z.to_nat (c + 3) := Z.shiftl (counter_byte counter 3) 4]>
    (<[Z.to_nat (c + 2) := Z.shiftl (counter_byte counter 2) 4]>
      (<[Z.to_nat (c + 1) := Z.shiftl (counter_byte counter 1) 4]>
        (<[Z.to_nat c := Z.shiftl (counter_byte counter 0) 4]>
          (<[Z.to_nat (frame_record_flag_offset g) :=
               if flag then 0xAD0 else idle]> row)))).

Definition encode_frame (g : geometry) (counter : Z) (flag : bool) (idle : Z)
    (f : frame16_t) : list (list byte) :=
  raw_of_frame16
    (alter (encode_row g counter flag idle) (Z.to_nat (header_row_with_meta g)) f).

(** ** Concrete inputs *)

(** The object built by [isx_scope(downsample_factor=2)] with the given
    flags. *)
Definition geometry_ds2 : geometry :=
  {| stream_width := 640;
     stream_height := 408;
     frame_width := 1280;
     frame_height := 816;
     frame_size_in_bytes := 1044480;
     isx_header_offset := 4;
     isx_footer_offset := 404;
     header_row_with_meta := 1;
     frame_counter_offset := 618;
     frame_record_flag_offset := 617;
     frame_record_flag_value := 0xAD0 |}.

Definition scope_ds2 (storage sync : bool) : isx_scope :=
  {| geom := geometry_ds2;
     prev_frame_seq_id := 0;
     sync_with_recording := sync;
     file_storage := storage;
     file_pointer := [];
     frame_statistics :=
       {| missing_frames_range := []; seq_id := 0; isxd_record := false |} |}.

(** A header row of 640 samples: zeros up to the flag column, then the
    flag sample and the four counter samples. *)
Definition header_row_ds2 (fb s0 s1 s2 s3 : Z) : list Z :=
  replicate 617 0 ++ [fb; s0; s1; s2; s3] ++ replicate 18 0.

(** The missing ranges reported for a sequence of header rows, in
    order. *)
Fixpoint track (self : isx_scope) (rows : list (list Z)) : list (list Z) :=
  match rows with
  | [] => []
  | row :: rows' =>
      let self' := snd (update_frame_stats self row) in
      missing_frames_range (frame_statistics self') :: track self' rows'
  end.

(** A frame of [n] rows of 640 samples whose row 1 is [row]. *)
Definition frame_ds2 (n : nat) (row : list Z) : frame16_t :=
  <[1%nat := row]> (replicate n (replicate 640 0)).


(** ** Sequences of calls *)

(** [get_frame] called once per read, in order, as the capture loop
    does: the results, and the object after the last call. *)
Fixpoint get_frames (self : isx_scope) (reads : list (bool * list (list byte)))
  : list (option (statistics * frame16_t)) * isx_scope :=
  match reads with
  | [] => ([], self)
  | (ret, raw) :: reads' =>
      let r := get_frame self ret raw in
      let rs := get_frames (snd r) reads' in
      (fst r :: fst rs, snd rs)
  end.

(** The frames among a list of results. *)
Fixpoint delivered_frames (outs : list (option (statistics * frame16_t)))
  : list frame16_t :=
  match outs with
  | [] => []
  | Some (_, frame) :: outs' => frame :: delivered_frames outs'
  | None :: outs' => delivered_frames outs'
  end.

(** The counter a header row holds, when its five columns can be read. *)
Definition row_counter (g : geometry) (row : list Z) : result Z :=
  do s0 <- np_index row (frame_counter_offset g) ;;
  do s1 <- np_index row (frame_counter_offset g + 1) ;;
  do s2 <- np_index row (frame_counter_offset g + 2) ;;
  do s3 <- np_index row (frame_counter_offset g + 3) ;;
  do fb <- np_index row (frame_record_flag_offset g) ;;
  Ok (counter_exact s0 s1 s2 s3).

(** The missing ranges of a sequence of counters, from a previous
    counter on. *)
Fixpoint gaps (prev : Z) (cs : list Z) : list (list Z) :=
  match cs with
  | [] => []
  | c :: cs' => missing_range prev c :: gaps c cs'
  end.

(** [n] consecutive counters from [c] on. *)
Fixpoint counters_from (c : Z) (n : nat) : list Z :=
  match n with
  | O => []
  | S n' => c :: counters_from (c + 1) n'
  end.

(** The state of the tracker is coherent: the previous counter is the
    one of the stored statistics, it is a 36-bit value, and the stored
    range is empty or ends just below that counter and does not start
    at 1. *)
Definition tracker_ok (self : isx_scope) : bool :=
  let st := frame_statistics self in
  (prev_frame_seq_id self =? seq_id st)
  && in_range (seq_id st) (2 ^ 36)
  && match missing_frames_range st with
     | [] => true
     | [lo; hi] => (hi =? seq_id st - 1) && negb (lo =? 1)
     | _ => false
     end.

(** The layout of a geometry against the native 1280 x 800 sensor. *)
Definition layout_ok (ds : Z) (g : geometry) : bool :=
  (stream_width g * ds =? 1280)
  && ((isx_footer_offset g - isx_header_offset g) * ds =? 800)
  && (isx_header_offset g * stream_width g =? 2 * 1280)
  && (stream_height g =? 800 / ds + 2 * isx_header_offset g)
  && (header_row_with_meta g <? isx_header_offset g)
  && (frame_size_in_bytes g =? 4 * ((1280 / ds) * (800 / ds)) + 8 * (2 * 1280)).

Definition layout_check (ds : Z) : bool :=
  if divides_native ds
  then match isx_set_defaults ds with
       | Ok (g, _) => layout_ok ds g
       | Raise _ => false
       end
  else true.


(** * Geometry *)

Section Geometry.

Lemma in_range_spec x n : in_range x n = true <-> 0 <= x < n.
Proof. unfold in_range. rewrite andb_true_iff, Z.leb_le, Z.ltb_lt. tauto. Qed.

Lemma forallb_upto (P : Z -> bool) (n : nat) :
  forallb P (map Z.of_nat (seq 1 n)) = true ->
  forall z, 1 <= z <= Z.of_nat n -> P z = true.
Proof.
  intros H z Hz.
  rewrite forallb_forall in H. apply H.
  apply in_map_iff. exists (Z.to_nat z). split; [lia|].
  apply in_seq. lia.
Qed.

Lemma common_divisor_bound ds :
  0 < ds -> (ds | 1280) -> (ds | 800) -> 1 <= ds <= 160.
Proof.
  intros Hpos H1 H2.
  assert (H : (ds | 160)).
  { replace 160 with (2 * 1280 - 3 * 800) by reflexivity.
    apply Z.divide_sub_r; apply Z.divide_mul_r; assumption. }
  apply Z.divide_pos_le in H; lia.
Qed.

Lemma divides_native_spec ds :
  0 < ds -> (ds | 1280) -> (ds | 800) -> divides_native ds = true.
Proof.
  intros Hpos H1 H2. unfold divides_native.
  rewrite andb_true_iff, !Z.eqb_eq.
  split; apply Z.mod_divide; (lia || assumption).
Qed.

Lemma geometry_check_all : forallb geometry_check (map Z.of_nat (seq 1 160)) = true.
Proof. vm_compute. reflexivity. Qed.

Lemma valid_factor_geometry ds :
  0 < ds -> (ds | 1280) -> (ds | 800) ->
  exists g, isx_set_defaults ds = Ok (g, 0) /\ geometry_ok g = true.
Proof.
  intros Hpos H1 H2.
  pose proof (forallb_upto _ _ geometry_check_all ds
                (common_divisor_bound ds Hpos H1 H2)) as Hc.
  unfold geometry_check in Hc.
  rewrite (divides_native_spec ds Hpos H1 H2) in Hc.
  destruct (isx_set_defaults ds) as [[g p]|e]; [|discriminate].
  apply andb_true_iff in Hc as [Hg Hp]. apply Z.eqb_eq in Hp. subst p.
  exists g. split; [reflexivity | assumption].
Qed.

(** When the computation raises. *)
Lemma isx_set_defaults_raises ds :
  isx_set_defaults ds = Raise ZeroDivisionError <-> ds = 0 \/ 1280 < ds.
Proof.
  unfold isx_set_defaults, floordiv, bind.
  destruct (Z.eqb_spec ds 0) as [->|Hds].
  { split; [intros _; left; reflexivity | reflexivity]. }
  destruct (Z.eqb_spec (1280 / ds) 0) as [Hw|Hw].
  { split; [intros _|reflexivity]. right.
    apply Z.div_small_iff in Hw; lia. }
  change (4 =? 0) with false. change (2 =? 0) with false. cbn match.
  destruct (Z.eqb_spec (2 * (1280 / ds)) 0) as [Hw2|Hw2]; [lia|].
  split; [discriminate|].
  intros [?|Hbig]; [contradiction|].
  exfalso. apply Hw. apply Z.div_small. lia.
Qed.

Lemma isx_set_defaults_total ds :
  (exists g, isx_set_defaults ds = Ok (g, 0))
  \/ isx_set_defaults ds = Raise ZeroDivisionError.
Proof.
  unfold isx_set_defaults, floordiv, bind.
  repeat match goal with
         | |- context [if ?b then _ else _] => destruct b
         end; eauto.
Qed.

End Geometry.

(** * Decoder and sequence tracker *)

Lemma np_index_lookup {A : Type} (a : list A) (i : Z) (x : A) :
  0 <= i -> a !! Z.to_nat i = Some x -> np_index a i = Ok x.
Proof.
  intros Hi Hx. unfold np_index.
  pose proof (lookup_lt_Some _ _ _ Hx) as Hlt.
  destruct (Z.ltb_spec i 0) as [?|_]; [lia|].
  destruct (Z.leb_spec 0 i) as [_|?]; [|lia].
  destruct (Z.ltb_spec i (Z.of_nat (length a))) as [_|?]; [|lia].
  cbn. rewrite Hx. reflexivity.
Qed.

Lemma np_index_short {A : Type} (a : list A) (i : Z) :
  0 <= i -> Z.of_nat (length a) <= i -> np_index a i = Raise IndexError.
Proof.
  intros Hi Hlen. unfold np_index.
  destruct (Z.ltb_spec i 0) as [?|_]; [lia|].
  destruct (Z.ltb_spec i (Z.of_nat (length a))) as [?|_]; [lia|].
  rewrite andb_false_r. reflexivity.
Qed.

Lemma np_index_Ok_inv {A : Type} (a : list A) (i : Z) (x : A) :
  0 <= i -> np_index a i = Ok x -> a !! Z.to_nat i = Some x.
Proof.
  intros Hi. unfold np_index.
  destruct (Z.ltb_spec i 0) as [?|_]; [lia|].
  destruct (_ && _); [|discriminate].
  destruct (a !! Z.to_nat i); [|discriminate].
  intros [= ->]. reflexivity.
Qed.

Section Decoded.

Variable self : isx_scope.
Variable frame_header_row : list Z.
Variables s0 s1 s2 s3 fb : Z.

Let g := geom self.

Hypothesis read0 : np_index frame_header_row (frame_counter_offset g) = Ok s0.
Hypothesis read1 : np_index frame_header_row (frame_counter_offset g + 1) = Ok s1.
Hypothesis read2 : np_index frame_header_row (frame_counter_offset g + 2) = Ok s2.
Hypothesis read3 : np_index frame_header_row (frame_counter_offset g + 3) = Ok s3.
Hypothesis readf : np_index frame_header_row (frame_record_flag_offset g) = Ok fb.

(** What [update_frame_stats] does when the five reads succeed. *)
Lemma update_frame_stats_decoded :
  update_frame_stats self frame_header_row =
    (fb =? frame_record_flag_value g,
     set_prev
       (set_stats self
          {| missing_frames_range :=
               missing_range (prev_frame_seq_id self) (counter_exact s0 s1 s2 s3);
             seq_id := counter_exact s0 s1 s2 s3;
             isxd_record := fb =? frame_record_flag_value g |})
       (counter_exact s0 s1 s2 s3)).
Proof.
  unfold update_frame_stats, update_frame_stats_body. fold g.
  rewrite read0, read1, read2, read3, readf. cbn [bind].
  rewrite Z.shiftl_0_r. fold (counter_exact s0 s1 s2 s3).
  unfold missing_range.
  destruct (prev_frame_seq_id self =? 0); cbn [negb andb orb]; [reflexivity|].
  destruct (counter_exact s0 s1 s2 s3 =? prev_frame_seq_id self + 1);
    reflexivity.
Qed.

End Decoded.

(** What [update_frame_stats] does when one of the reads raises. *)
Lemma update_frame_stats_raised (self : isx_scope) (row : list Z) (e : exn) :
  update_frame_stats_body self row = Raise e ->
  update_frame_stats self row = (false, self).
Proof. intros H. unfold update_frame_stats. rewrite H. reflexivity. Qed.

Lemma body_raises_of_read (self : isx_scope) (row : list Z) :
  let g := geom self in
  (exists e, np_index row (frame_counter_offset g) = Raise e)
  \/ (exists e, np_index row (frame_counter_offset g + 1) = Raise e)
  \/ (exists e, np_index row (frame_counter_offset g + 2) = Raise e)
  \/ (exists e, np_index row (frame_counter_offset g + 3) = Raise e)
  \/ (exists e, np_index row (frame_record_flag_offset g) = Raise e) ->
  exists e, update_frame_stats_body self row = Raise e.
Proof.
  intros g H. unfold update_frame_stats_body. fold g.
  destruct (np_index row (frame_counter_offset g)) as [x0|e0]; cbn [bind]; [|eauto].
  destruct (np_index row (frame_counter_offset g + 1)) as [x1|e1]; cbn [bind]; [|eauto].
  destruct (np_index row (frame_counter_offset g + 2)) as [x2|e2]; cbn [bind]; [|eauto].
  destruct (np_index row (frame_counter_offset g + 3)) as [x3|e3]; cbn [bind]; [|eauto].
  destruct (np_index row (frame_record_flag_offset g)) as [xf|ef]; cbn [bind]; [|eauto].
  exfalso. destruct H as [[e H]|[[e H]|[[e H]|[[e H]|[e H]]]]]; discriminate.
Qed.

(** * Bit arithmetic of the counter *)

Lemma lor_bound a b n :
  0 <= n -> 0 <= a < 2 ^ n -> 0 <= b < 2 ^ n -> 0 <= Z.lor a b < 2 ^ n.
Proof.
  intros Hn Ha Hb. split; [apply Z.lor_nonneg; lia|].
  destruct (Z.eq_dec (Z.lor a b) 0) as [->|Hz]; [lia|].
  assert (0 < Z.lor a b) by (pose proof (proj2 (Z.lor_nonneg a b) (conj (proj1 Ha) (proj1 Hb))); lia).
  apply Z.log2_lt_pow2; [assumption|].
  rewrite Z.log2_lor by lia.
  destruct (Z.eq_dec a 0) as [->|]; destruct (Z.eq_dec b 0) as [->|].
  - change (Z.lor 0 0) with 0 in *. lia.
  - rewrite Z.max_r by (apply Z.log2_nonneg). apply Z.log2_lt_pow2; lia.
  - rewrite Z.max_l by (apply Z.log2_nonneg). apply Z.log2_lt_pow2; lia.
  - apply Z.max_lub_lt; apply Z.log2_lt_pow2; lia.
Qed.

Lemma testbit_255 k : 0 <= k -> Z.testbit 255 k = (k <? 8).
Proof. intros. change 255 with (Z.ones 8). apply Z.testbit_ones_nonneg; lia. Qed.

Lemma shl4_shr4 a : Z.shiftr (Z.shiftl a 4) 4 = a.
Proof. rewrite Z.shiftr_shiftl_l by lia. apply Z.shiftl_0_r. Qed.

Lemma high_bits_zero c n : 0 <= c < 2 ^ 32 -> 32 <= n -> Z.testbit c n = false.
Proof.
  intros Hc Hn. destruct (Z.eq_dec c 0) as [->|]; [apply Z.bits_0|].
  apply Z.bits_above_log2; [lia|].
  assert (Z.log2 c < 32) by (apply Z.log2_lt_pow2; lia). lia.
Qed.

Lemma counter_exact_bytes c :
  0 <= c < 2 ^ 32 ->
  counter_exact (Z.shiftl (counter_byte c 0) 4) (Z.shiftl (counter_byte c 1) 4)
                (Z.shiftl (counter_byte c 2) 4) (Z.shiftl (counter_byte c 3) 4) = c.
Proof.
  intros Hc. unfold counter_exact. rewrite !shl4_shr4. unfold counter_byte.
  apply Z.bits_inj'. intros n Hn.
  rewrite !Z.lor_spec, !Z.shiftl_spec by lia.
  change (8 * 0) with 0. rewrite Z.shiftr_0_r.
  destruct (Z.lt_ge_cases n 8).
  { rewrite Z.land_spec, testbit_255 by lia.
    rewrite !(Z.testbit_neg_r _ (n - _)) by lia.
    destruct (Z.ltb_spec n 8); [|lia]. rewrite andb_true_r, !orb_false_r. reflexivity. }
  rewrite (Z.land_spec c), (testbit_255 n) by lia.
  destruct (Z.ltb_spec n 8); [lia|]. rewrite andb_false_r. cbn [orb].
  destruct (Z.lt_ge_cases n 16).
  { rewrite !(Z.testbit_neg_r _ (n - 16)), !(Z.testbit_neg_r _ (n - 24)) by lia.
    rewrite Z.land_spec, Z.shiftr_spec, testbit_255 by lia.
    destruct (Z.ltb_spec (n - 8) 8); [|lia].
    rewrite andb_true_r, !orb_false_r. f_equal. lia. }
  rewrite (Z.land_spec _ _ (n - 8)), (testbit_255 (n - 8)) by lia.
  destruct (Z.ltb_spec (n - 8) 8); [lia|]. rewrite andb_false_r. cbn [orb].
  destruct (Z.lt_ge_cases n 24).
  { rewrite !(Z.testbit_neg_r _ (n - 24)) by lia.
    rewrite Z.land_spec, Z.shiftr_spec, testbit_255 by lia.
    destruct (Z.ltb_spec (n - 16) 8); [|lia].
    rewrite andb_true_r, !orb_false_r. f_equal. lia. }
  rewrite (Z.land_spec _ _ (n - 16)), (testbit_255 (n - 16)) by lia.
  destruct (Z.ltb_spec (n - 16) 8); [lia|]. rewrite andb_false_r. cbn [orb].
  rewrite Z.land_spec, Z.shiftr_spec, testbit_255 by lia.
  destruct (Z.ltb_spec (n - 24) 8).
  - rewrite andb_true_r. f_equal. lia.
  - rewrite andb_false_r. symmetry. apply high_bits_zero; [assumption|lia].
Qed.

Lemma shr4_bound s : 0 <= s < 2 ^ 16 -> 0 <= Z.shiftr s 4 < 2 ^ 12.
Proof.
  intros Hs. rewrite Z.shiftr_div_pow2 by lia.
  change (2 ^ 4) with 16. change (2 ^ 12) with 4096. change (2 ^ 16) with 65536 in Hs.
  split; [apply Z.div_pos; lia | apply Z.div_lt_upper_bound; lia].
Qed.

Lemma shl_bound a k n :
  0 <= k -> 0 <= n -> 0 <= a < 2 ^ n -> 0 <= Z.shiftl a k < 2 ^ (n + k).
Proof.
  intros Hk Hn Ha. rewrite Z.shiftl_mul_pow2, Z.pow_add_r by lia.
  assert (0 < 2 ^ k) by (apply Z.pow_pos_nonneg; lia). nia.
Qed.

Lemma pow2_le_bound x m n : 0 <= m <= n -> 0 <= x < 2 ^ m -> 0 <= x < 2 ^ n.
Proof.
  intros Hmn Hx. split; [lia|].
  apply Z.lt_le_trans with (2 ^ m); [lia|]. apply Z.pow_le_mono_r; lia.
Qed.

Section CounterBounds.

Variables s0 s1 s2 s3 : Z.
Hypothesis H0 : 0 <= s0 < 2 ^ 16.
Hypothesis H1 : 0 <= s1 < 2 ^ 16.
Hypothesis H2 : 0 <= s2 < 2 ^ 16.
Hypothesis H3 : 0 <= s3 < 2 ^ 16.

Lemma counter_exact_bound : 0 <= counter_exact s0 s1 s2 s3 < 2 ^ 36.
Proof.
  unfold counter_exact.
  pose proof (shr4_bound _ H0) as B0.
  pose proof (shl_bound _ 8 12 ltac:(lia) ltac:(lia) (shr4_bound _ H1)) as B1.
  pose proof (shl_bound _ 16 12 ltac:(lia) ltac:(lia) (shr4_bound _ H2)) as B2.
  pose proof (shl_bound _ 24 12 ltac:(lia) ltac:(lia) (shr4_bound _ H3)) as B3.
  cbn [Z.add Pos.add Pos.succ] in B1, B2, B3.
  repeat apply lor_bound; try lia;
    eapply pow2_le_bound; try eassumption; lia.
Qed.

Lemma counter_u32_exact : s3 < 2 ^ 12 -> counter_u32 s0 s1 s2 s3 = counter_exact s0 s1 s2 s3.
Proof.
  intros Hs3. unfold counter_u32, counter_exact, u32.
  pose proof (shr4_bound _ H0) as B0.
  pose proof (shl_bound _ 8 12 ltac:(lia) ltac:(lia) (shr4_bound _ H1)) as B1.
  pose proof (shl_bound _ 16 12 ltac:(lia) ltac:(lia) (shr4_bound _ H2)) as B2.
  assert (B3 : 0 <= Z.shiftl (Z.shiftr s3 4) 24 < 2 ^ 32).
  { apply (shl_bound _ 24 8); try lia.
    rewrite Z.shiftr_div_pow2 by lia.
    change (2 ^ 4) with 16. change (2 ^ 8) with 256. change (2 ^ 12) with 4096 in Hs3.
    split; [apply Z.div_pos; lia | apply Z.div_lt_upper_bound; lia]. }
  cbn [Z.add Pos.add Pos.succ] in B1, B2.
  rewrite (Z.mod_small (Z.shiftr s0 4))
    by (eapply pow2_le_bound; [|exact B0]; lia).
  rewrite (Z.mod_small (Z.shiftl (Z.shiftr s1 4) 8))
    by (eapply pow2_le_bound; [|exact B1]; lia).
  rewrite (Z.mod_small (Z.shiftl (Z.shiftr s2 4) 16))
    by (eapply pow2_le_bound; [|exact B2]; lia).
  rewrite (Z.mod_small (Z.shiftl (Z.shiftr s3 4) 24)) by exact B3.
  apply Z.mod_small.
  repeat apply lor_bound; try lia;
    eapply pow2_le_bound; try eassumption; lia.
Qed.

End CounterBounds.

(** * Bytes and samples *)

Lemma to_N_byte_of_Z z : Byte.to_N (byte_of_Z z) = Z.to_N (z mod 256).
Proof.
  unfold byte_of_Z.
  destruct (Byte.of_N (Z.to_N (z mod 256))) as [b|] eqn:E.
  - apply Byte.to_of_N. exact E.
  - apply Byte.of_N_None_iff in E.
    pose proof (Z.mod_pos_bound z 256 ltac:(lia)). lia.
Qed.

Lemma sample_of_bytes_of_sample s :
  sample_of_bytes (byte_of_Z s) (byte_of_Z (s / 256)) = s mod 65536.
Proof.
  unfold sample_of_bytes. rewrite !to_N_byte_of_Z.
  pose proof (Z.mod_pos_bound s 256 ltac:(lia)).
  pose proof (Z.mod_pos_bound (s / 256) 256 ltac:(lia)).
  rewrite !Z2N.id by lia.
  change 65536 with (256 * 256). rewrite Z.rem_mul_r by lia. reflexivity.
Qed.

Lemma view_row_bytes (row : list Z) :
  view_row (flat_map bytes_of_sample row) = Ok (map (fun s => s mod 65536) row).
Proof.
  induction row as [|s row IH]; [reflexivity|].
  cbn [flat_map bytes_of_sample app view_row map].
  rewrite IH. cbn [bind]. rewrite sample_of_bytes_of_sample. reflexivity.
Qed.

Lemma view_uint16_raw (f : frame16_t) :
  view_uint16 (raw_of_frame16 f) = Ok (map (map (fun s => s mod 65536)) f).
Proof.
  unfold raw_of_frame16.
  induction f as [|row f IH]; [reflexivity|].
  cbn [map view_uint16]. rewrite view_row_bytes. cbn [bind].
  rewrite IH. reflexivity.
Qed.

(** * [get_frame] *)

Lemma get_frame_empty (self : isx_scope) (raw : list (list byte)) :
  get_frame self false raw = (None, self).
Proof. reflexivity. Qed.

Lemma get_frame_unreadable (self : isx_scope) (raw : list (list byte)) :
  (exists e, view_uint16 raw = Raise e)
  \/ (exists frame16 e,
        view_uint16 raw = Ok frame16
        /\ np_index frame16 (header_row_with_meta (geom self)) = Raise e) ->
  get_frame self true raw = (None, self).
Proof.
  unfold get_frame, get_frame_body. cbn [negb].
  intros [[e H]|(frame16 & e & H & Hrow)]; rewrite H; cbn [bind]; [reflexivity|].
  rewrite Hrow. reflexivity.
Qed.

Lemma update_frame_stats_flags (self : isx_scope) (row : list Z) :
  let self' := snd (update_frame_stats self row) in
  geom self' = geom self
  /\ sync_with_recording self' = sync_with_recording self
  /\ file_storage self' = file_storage self
  /\ file_pointer self' = file_pointer self.
Proof.
  unfold update_frame_stats, update_frame_stats_body.
  repeat match goal with
         | |- context [bind (np_index ?a ?i) _] =>
             destruct (np_index a i); cbn [bind]
         end; cbn; auto.
Qed.

Lemma get_frame_read (self : isx_scope) (raw : list (list byte))
    (frame16 : frame16_t) (row : list Z) :
  view_uint16 raw = Ok frame16 ->
  np_index frame16 (header_row_with_meta (geom self)) = Ok row ->
  get_frame self true raw = deliver self frame16 row.
Proof.
  intros Hv Hrow. unfold get_frame, get_frame_body, deliver. cbn [negb].
  rewrite Hv. cbn [bind]. rewrite Hrow. cbn [bind].
  pose proof (update_frame_stats_flags self row) as (Hg & Hs & Hf & _).
  destruct (update_frame_stats self row) as [st self'] eqn:E.
  cbn [fst snd] in *. rewrite Hs, Hf.
  destruct (sync_with_recording self && negb st); [reflexivity|].
  destruct (file_storage self); reflexivity.
Qed.

Lemma isx_set_defaults_fields (ds : Z) (g : geometry) (p : Z) :
  isx_set_defaults ds = Ok (g, p) ->
  frame_record_flag_value g = 0xAD0
  /\ frame_record_flag_offset g = frame_counter_offset g - 1
  /\ p = 0.
Proof.
  unfold isx_set_defaults, floordiv, bind.
  repeat match goal with
         | |- context [if ?b then _ else _] => destruct b
         end; try discriminate.
  intros [= <- <-]. cbn. repeat split. lia.
Qed.

Lemma deliver_statistics (self : isx_scope) (frame16 : frame16_t) (row : list Z) :
  frame_statistics (snd (deliver self frame16 row))
  = frame_statistics (snd (update_frame_stats self row))
  /\ prev_frame_seq_id (snd (deliver self frame16 row))
    = prev_frame_seq_id (snd (update_frame_stats self row)).
Proof.
  unfold deliver.
  destruct (sync_with_recording self && negb (fst (update_frame_stats self row)));
    [split; reflexivity|].
  destruct (file_storage self); split; reflexivity.
Qed.

Lemma geometry_ok_spec (g : geometry) :
  geometry_ok g = true ->
  0 <= isx_header_offset g < stream_height g
  /\ 0 <= isx_footer_offset g < stream_height g
  /\ 0 <= header_row_with_meta g < stream_height g
  /\ 0 <= frame_counter_offset g
  /\ frame_counter_offset g + 3 < stream_width g
  /\ 0 <= frame_record_flag_offset g < stream_width g
  /\ frame_size_in_bytes g = frame_width g * frame_height g.
Proof.
  intros Hok. unfold geometry_ok in Hok.
  repeat (apply andb_true_iff in Hok as [Hok ?]).
  repeat match goal with
         | H : in_range _ _ = true |- _ => apply in_range_spec in H
         | H : (_ =? _) = true |- _ => apply Z.eqb_eq in H
         end.
  repeat split; lia.
Qed.

Lemma lookup_map {A B : Type} (f : A -> B) (l : list A) (i : nat) :
  map f l !! i = f <$> l !! i.
Proof.
  revert i. induction l as [|x l IH]; intros [|i]; cbn; try reflexivity.
  apply IH.
Qed.

Lemma counter_byte_bound (c i : Z) : 0 <= counter_byte c i < 256.
Proof.
  unfold counter_byte. change 255 with (Z.ones 8).
  rewrite Z.land_ones by lia. apply Z.mod_pos_bound. lia.
Qed.

Lemma encoded_sample_fits (b : Z) :
  0 <= b < 256 -> Z.shiftl b 4 mod 65536 = Z.shiftl b 4.
Proof.
  intros Hb. apply Z.mod_small. rewrite Z.shiftl_mul_pow2 by lia.
  change (2 ^ 4) with 16. lia.
Qed.

(** The columns of an encoded meta row, after the 16-bit view. *)
Lemma encode_row_reads (g : geometry) (counter : Z) (flag : bool) (idle : Z)
    (row : list Z) :
  0 <= frame_record_flag_offset g ->
  frame_record_flag_offset g = frame_counter_offset g - 1 ->
  frame_counter_offset g + 3 < Z.of_nat (length row) ->
  0 <= idle < 65536 ->
  let row16 := map (fun s => s mod 65536) (encode_row g counter flag idle row) in
  np_index row16 (frame_counter_offset g) = Ok (Z.shiftl (counter_byte counter 0) 4)
  /\ np_index row16 (frame_counter_offset g + 1) = Ok (Z.shiftl (counter_byte counter 1) 4)
  /\ np_index row16 (frame_counter_offset g + 2) = Ok (Z.shiftl (counter_byte counter 2) 4)
  /\ np_index row16 (frame_counter_offset g + 3) = Ok (Z.shiftl (counter_byte counter 3) 4)
  /\ np_index row16 (frame_record_flag_offset g) = Ok (if flag then 0xAD0 else idle).
Proof.
  intros Hf Hfc Hlen Hidle. cbv zeta. unfold encode_row.
  repeat split; (apply np_index_lookup; [lia|]); rewrite lookup_map;
    repeat (rewrite list_lookup_insert_ne by lia);
    (rewrite list_lookup_insert_eq by (rewrite ?length_insert; lia));
    cbn [fmap option_fmap option_map]; f_equal;
    try (apply encoded_sample_fits, counter_byte_bound).
  destruct flag; [reflexivity | apply Z.mod_small; lia].
Qed.

(** * The properties *)

(** C1.  For [downsample_factor = 2] the geometry is: stream 640 x 408,
    frame 1280 x 816, 1044480 bytes, header offset 4, footer offset 404,
    meta row 1, counter column 618, flag column 617. *)
Theorem geometry_factor_2 :
  isx_set_defaults 2 =
    Ok ({| stream_width := 640;
           stream_height := 408;
           frame_width := 1280;
           frame_height := 816;
           frame_size_in_bytes := 1044480;
           isx_header_offset := 4;
           isx_footer_offset := 404;
           header_row_with_meta := 1;
           frame_counter_offset := 618;
           frame_record_flag_offset := 617;
           frame_record_flag_value := 0xAD0 |}, 0).
Proof. reflexivity. Qed.

Lemma init_ds2 (storage sync : bool) : init 2 storage sync = Ok (scope_ds2 storage sync).
Proof. reflexivity. Qed.

Lemma header_row_ds2_reads (fb s0 s1 s2 s3 : Z) :
  let row := header_row_ds2 fb s0 s1 s2 s3 in
  np_index row 617 = Ok fb
  /\ np_index row 618 = Ok s0
  /\ np_index row 619 = Ok s1
  /\ np_index row 620 = Ok s2
  /\ np_index row 621 = Ok s3.
Proof. cbv zeta. repeat split; apply np_index_lookup; (lia || reflexivity). Qed.

(** C2, as stated, fails: with the fourth sample [0x1000] the decoded
    counter is [2^32], which unsigned 32-bit arithmetic cannot give. *)
Lemma counter_exceeds_u32 :
  let row := header_row_ds2 0 0 0 0 0x1000 in
  let self := scope_ds2 false false in
  np_index row (frame_counter_offset (geom self)) = Ok 0
  /\ np_index row (frame_counter_offset (geom self) + 1) = Ok 0
  /\ np_index row (frame_counter_offset (geom self) + 2) = Ok 0
  /\ np_index row (frame_counter_offset (geom self) + 3) = Ok 0x1000
  /\ seq_id (frame_statistics (snd (update_frame_stats self row))) = 2 ^ 32
  /\ counter_u32 0 0 0 0x1000 = 0
  /\ seq_id (frame_statistics (snd (update_frame_stats self row)))
     <> counter_u32 0 0 0 0x1000.
Proof. vm_compute. repeat split; congruence. Qed.

(** C2, amended.  For 16-bit samples [s0..s3] read at the four columns
    from [frame_counter_offset], the decoded counter is
    [(s0>>4) | ((s1>>4)<<8) | ((s2>>4)<<16) | ((s3>>4)<<24)] over the
    integers, with nothing truncated: it lies in [[0, 2^36)], and it is
    the unsigned 32-bit value of the formula when [s3 < 0x1000]. *)
Theorem decoded_counter_exact (self : isx_scope) (row : list Z) (s0 s1 s2 s3 fb : Z) :
  np_index row (frame_counter_offset (geom self)) = Ok s0 ->
  np_index row (frame_counter_offset (geom self) + 1) = Ok s1 ->
  np_index row (frame_counter_offset (geom self) + 2) = Ok s2 ->
  np_index row (frame_counter_offset (geom self) + 3) = Ok s3 ->
  np_index row (frame_record_flag_offset (geom self)) = Ok fb ->
  0 <= s0 < 2 ^ 16 -> 0 <= s1 < 2 ^ 16 -> 0 <= s2 < 2 ^ 16 -> 0 <= s3 < 2 ^ 16 ->
  let c := seq_id (frame_statistics (snd (update_frame_stats self row))) in
  c = counter_exact s0 s1 s2 s3
  /\ 0 <= c < 2 ^ 36
  /\ (s3 < 2 ^ 12 -> c = counter_u32 s0 s1 s2 s3).
Proof.
  intros R0 R1 R2 R3 Rf B0 B1 B2 B3.
  rewrite (update_frame_stats_decoded self row s0 s1 s2 s3 fb R0 R1 R2 R3 Rf).
  cbn [snd set_prev set_stats frame_statistics seq_id].
  split; [reflexivity|]. split.
  - apply counter_exact_bound; assumption.
  - intros Hs3. symmetry. apply counter_u32_exact; assumption.
Qed.

Lemma decoded_counter_exact_witness :
  let row := header_row_ds2 0xAD0 0x640 0x10 0x20 0x30 in
  let self := scope_ds2 false false in
  seq_id (frame_statistics (snd (update_frame_stats self row)))
    = counter_exact 0x640 0x10 0x20 0x30
  /\ 0 <= seq_id (frame_statistics (snd (update_frame_stats self row))) < 2 ^ 36
  /\ (0x30 < 2 ^ 12 ->
      seq_id (frame_statistics (snd (update_frame_stats self row)))
      = counter_u32 0x640 0x10 0x20 0x30).
Proof.
  apply (decoded_counter_exact (scope_ds2 false false)
           (header_row_ds2 0xAD0 0x640 0x10 0x20 0x30) 0x640 0x10 0x20 0x30 0xAD0);
    first [ reflexivity | lia ].
Defined.

(** C3.  The tracker starts with [prev_frame_seq_id = 0].  For every
    observed counter [c]: when the previous counter is [0] or [c] is its
    successor, no missing range is reported, otherwise the range is
    [(prev + 1, c - 1)]; in every case the previous counter becomes [c].
    The first observed counter reports no missing range. *)
Theorem sequence_tracker_policy
    (ds : Z) (storage sync : bool) (self0 self : isx_scope)
    (row : list Z) (s0 s1 s2 s3 fb : Z) :
  init ds storage sync = Ok self0 ->
  np_index row (frame_counter_offset (geom self)) = Ok s0 ->
  np_index row (frame_counter_offset (geom self) + 1) = Ok s1 ->
  np_index row (frame_counter_offset (geom self) + 2) = Ok s2 ->
  np_index row (frame_counter_offset (geom self) + 3) = Ok s3 ->
  np_index row (frame_record_flag_offset (geom self)) = Ok fb ->
  let prev := prev_frame_seq_id self in
  let self' := snd (update_frame_stats self row) in
  let c := seq_id (frame_statistics self') in
  prev_frame_seq_id self0 = 0
  /\ c = counter_exact s0 s1 s2 s3
  /\ (prev = 0 \/ c = prev + 1 ->
      missing_frames_range (frame_statistics self') = [])
  /\ (~ (prev = 0 \/ c = prev + 1) ->
      missing_frames_range (frame_statistics self') = [prev + 1; c - 1])
  /\ prev_frame_seq_id self' = c
  /\ (self = self0 -> missing_frames_range (frame_statistics self') = []).
Proof.
  intros Hinit R0 R1 R2 R3 Rf.
  rewrite (update_frame_stats_decoded self row s0 s1 s2 s3 fb R0 R1 R2 R3 Rf).
  cbn [snd set_prev set_stats frame_statistics seq_id missing_frames_range
       prev_frame_seq_id].
  assert (Hp0 : prev_frame_seq_id self0 = 0).
  { unfold init in Hinit.
    destruct (isx_set_defaults_total ds) as [[g Hg]|Hg];
      rewrite Hg in Hinit; cbn in Hinit; [|discriminate].
    injection Hinit as <-. reflexivity. }
  unfold missing_range.
  destruct (Z.eqb_spec (prev_frame_seq_id self) 0) as [Hz|Hz];
    destruct (Z.eqb_spec (counter_exact s0 s1 s2 s3) (prev_frame_seq_id self + 1))
      as [Hn|Hn]; cbn [orb];
    repeat split; try reflexivity; try tauto;
    intros ->; contradiction.
Qed.

Lemma sequence_tracker_policy_witness :
  let row := header_row_ds2 0 0x640 0 0 0 in
  let self := set_prev (scope_ds2 false false) 97 in
  let self' := snd (update_frame_stats self row) in
  init 2 false false = Ok (scope_ds2 false false)
  /\ seq_id (frame_statistics self') = 100
  /\ missing_frames_range (frame_statistics self') = [98; 99]
  /\ prev_frame_seq_id self' = 100.
Proof.
  pose proof (sequence_tracker_policy 2 false false (scope_ds2 false false)
                (set_prev (scope_ds2 false false) 97)
                (header_row_ds2 0 0x640 0 0 0) 0x640 0 0 0 0
                eq_refl eq_refl eq_refl eq_refl eq_refl eq_refl)
    as (_ & Hc & _ & Hgap & Hprev & _).
  cbv zeta. split; [reflexivity|].
  split; [exact Hc|]. split; [|exact Hprev].
  apply Hgap. vm_compute. intros [H|H]; discriminate.
Defined.

(** The counter sequences [100, 101, 102], [100, 103] and [100, 99]. *)
Example tracker_sequences :
  let row c := header_row_ds2 0 (Z.shiftl c 4) 0 0 0 in
  track (scope_ds2 false false) [row 100; row 101; row 102] = [[]; []; []]
  /\ track (scope_ds2 false false) [row 100; row 103] = [[]; [101; 102]]
  /\ track (scope_ds2 false false) [row 100; row 99] = [[]; [101; 98]].
Proof. vm_compute. repeat split. Qed.

(** C5, as stated, fails: the factor 3 divides neither 1280 nor 800, and
    the computation returns a geometry for it. *)
Lemma factor_3_accepted :
  ~ (3 | 1280) /\ ~ (3 | 800)
  /\ exists g, isx_set_defaults 3 = Ok (g, 0) /\ stream_width g = 426.
Proof.
  split; [|split].
  - intros [k Hk]. lia.
  - intros [k Hk]. lia.
  - eexists. split; reflexivity.
Qed.

(** C5, amended.  The geometry computation succeeds for every positive
    factor that evenly divides 1280 and 800.  It does not check
    divisibility and has no error of its own: it raises
    [ZeroDivisionError] exactly when the factor is zero or greater than
    1280, and returns a geometry for every other factor. *)
Theorem isx_set_defaults_no_validation (ds : Z) :
  (0 < ds -> (ds | 1280) -> (ds | 800) ->
   exists g, isx_set_defaults ds = Ok (g, 0))
  /\ (isx_set_defaults ds = Raise ZeroDivisionError <-> ds = 0 \/ 1280 < ds)
  /\ (ds <> 0 -> ds <= 1280 -> exists g, isx_set_defaults ds = Ok (g, 0)).
Proof.
  assert (Hok : ds <> 0 -> ds <= 1280 -> exists g, isx_set_defaults ds = Ok (g, 0)).
  { intros Hnz Hle.
    destruct (isx_set_defaults_total ds) as [H|H]; [exact H|].
    apply isx_set_defaults_raises in H. lia. }
  split; [|split].
  - intros Hpos H1 _. apply Hok; [lia|].
    apply Z.divide_pos_le in H1; lia.
  - apply isx_set_defaults_raises.
  - exact Hok.
Qed.

Lemma isx_set_defaults_no_validation_witness :
  (exists g, isx_set_defaults 160 = Ok (g, 0))
  /\ isx_set_defaults 0 = Raise ZeroDivisionError
  /\ isx_set_defaults 1281 = Raise ZeroDivisionError
  /\ (exists g, isx_set_defaults (-7) = Ok (g, 0)).
Proof.
  split; [|split; [|split]].
  - apply (proj1 (isx_set_defaults_no_validation 160)).
    + lia.
    + exists 8. reflexivity.
    + exists 5. reflexivity.
  - apply (proj1 (proj2 (isx_set_defaults_no_validation 0))). left. reflexivity.
  - apply (proj1 (proj2 (isx_set_defaults_no_validation 1281))). right. lia.
  - apply (proj2 (proj2 (isx_set_defaults_no_validation (-7)))); lia.
Defined.

(** C8.  For every positive downsample factor that evenly divides 1280
    and 800 the geometry is computed, and in it the header offset, the
    footer offset and the meta row lie in [[0, stream_height)], the four
    counter columns and the flag column lie in [[0, stream_width)], and
    the frame size is [frame_width * frame_height]. *)
Theorem geometry_invariant (ds : Z) :
  0 < ds -> (ds | 1280) -> (ds | 800) ->
  exists g,
    isx_set_defaults ds = Ok (g, 0)
    /\ 0 <= isx_header_offset g < stream_height g
    /\ 0 <= isx_footer_offset g < stream_height g
    /\ 0 <= header_row_with_meta g < stream_height g
    /\ 0 <= frame_counter_offset g
    /\ frame_counter_offset g + 3 < stream_width g
    /\ 0 <= frame_record_flag_offset g < stream_width g
    /\ frame_size_in_bytes g = frame_width g * frame_height g.
Proof.
  intros Hpos H1 H2.
  destruct (valid_factor_geometry ds Hpos H1 H2) as (g & Hg & Hok).
  exists g. split; [exact Hg|]. apply geometry_ok_spec. exact Hok.
Qed.

Lemma geometry_invariant_witness :
  exists g,
    isx_set_defaults 5 = Ok (g, 0)
    /\ 0 <= isx_header_offset g < stream_height g
    /\ 0 <= isx_footer_offset g < stream_height g
    /\ 0 <= header_row_with_meta g < stream_height g
    /\ 0 <= frame_counter_offset g
    /\ frame_counter_offset g + 3 < stream_width g
    /\ 0 <= frame_record_flag_offset g < stream_width g
    /\ frame_size_in_bytes g = frame_width g * frame_height g.
Proof.
  apply (geometry_invariant 5).
  - lia.
  - exists 256. reflexivity.
  - exists 160. reflexivity.
Defined.

(** C9.  When one of the five reads of [update_frame_stats] raises, as
    it does on a header row shorter than [frame_counter_offset + 4], the
    object is left as it was, [prev_frame_seq_id] and [frame_statistics]
    included, and the function returns [False]. *)
Theorem update_frame_stats_exception_safe (self : isx_scope) (row : list Z) :
  (exists e, np_index row (frame_counter_offset (geom self)) = Raise e)
  \/ (exists e, np_index row (frame_counter_offset (geom self) + 1) = Raise e)
  \/ (exists e, np_index row (frame_counter_offset (geom self) + 2) = Raise e)
  \/ (exists e, np_index row (frame_counter_offset (geom self) + 3) = Raise e)
  \/ (exists e, np_index row (frame_record_flag_offset (geom self)) = Raise e)
  \/ (0 <= frame_counter_offset (geom self)
      /\ Z.of_nat (length row) < frame_counter_offset (geom self) + 4) ->
  update_frame_stats self row = (false, self)
  /\ prev_frame_seq_id (snd (update_frame_stats self row)) = prev_frame_seq_id self
  /\ frame_statistics (snd (update_frame_stats self row)) = frame_statistics self.
Proof.
  intros H.
  assert (Hr : exists e, update_frame_stats_body self row = Raise e).
  { apply body_raises_of_read. cbv zeta.
    destruct H as [H|[H|[H|[H|[H|[Hc Hlen]]]]]]; eauto 10.
    right. right. right. left. exists IndexError.
    apply np_index_short; lia. }
  destruct Hr as [e Hr].
  rewrite (update_frame_stats_raised self row e Hr). auto.
Qed.

Lemma update_frame_stats_exception_safe_witness :
  let self := set_prev (scope_ds2 false true) 41 in
  let row := replicate 620 0x640 in
  update_frame_stats self row = (false, self)
  /\ prev_frame_seq_id (snd (update_frame_stats self row)) = 41
  /\ frame_statistics (snd (update_frame_stats self row)) = frame_statistics self.
Proof.
  apply (update_frame_stats_exception_safe
           (set_prev (scope_ds2 false true) 41) (replicate 620 0x640)).
  do 5 right. split; vm_compute; [discriminate | reflexivity].
Defined.

(** C4, as stated, fails: a buffer of two rows (2560 bytes instead of
    1044480) is decoded and delivered like a frame. *)
Lemma short_buffer_delivered :
  let self := scope_ds2 false false in
  let raw := raw_of_frame16 (frame_ds2 2 (header_row_ds2 0xAD0 0x640 0 0 0)) in
  raw_size raw = 2560
  /\ raw_size raw <> frame_size_in_bytes (geom self)
  /\ fst (get_frame self true raw)
     = Some ({| missing_frames_range := []; seq_id := 100; isxd_record := true |}, []).
Proof. vm_compute. repeat split; congruence. Qed.

(** C4, amended.  A raw buffer whose length differs from
    [frame_size_in_bytes] is not rejected for its length, and nothing
    escapes [get_frame]: when the buffer cannot be viewed as 16-bit
    samples or has no meta row, the result is [(None, None)], as for an
    empty read, and the object is unchanged; otherwise the buffer is
    handled like any frame (header decoded, gate and storage applied). *)
Theorem get_frame_wrong_length (self : isx_scope) (raw : list (list byte)) :
  raw_size raw <> frame_size_in_bytes (geom self) ->
  (((exists e, view_uint16 raw = Raise e)
    \/ (exists frame16 e,
          view_uint16 raw = Ok frame16
          /\ np_index frame16 (header_row_with_meta (geom self)) = Raise e))
   /\ get_frame self true raw = (None, self))
  \/ (exists frame16 row,
        view_uint16 raw = Ok frame16
        /\ np_index frame16 (header_row_with_meta (geom self)) = Ok row
        /\ get_frame self true raw = deliver self frame16 row).
Proof.
  intros _.
  destruct (view_uint16 raw) as [frame16|e] eqn:Hv.
  - destruct (np_index frame16 (header_row_with_meta (geom self))) as [row|e] eqn:Hr.
    + right. exists frame16, row.
      split; [reflexivity|]. split; [exact Hr|].
      apply get_frame_read; assumption.
    + left. split; [right; eauto|].
      apply get_frame_unreadable. right. exists frame16, e. rewrite Hv. auto.
  - left. split; [left; eauto|].
    apply get_frame_unreadable. left. eauto.
Qed.

Lemma get_frame_wrong_length_witness :
  let self := scope_ds2 false false in
  let raw := [[x00; x01; x02]] in
  raw_size raw <> frame_size_in_bytes (geom self)
  /\ get_frame self true raw = (None, self).
Proof.
  assert (Hne : raw_size [[x00; x01; x02]]
                <> frame_size_in_bytes (geom (scope_ds2 false false)))
    by (vm_compute; discriminate).
  split; [exact Hne|].
  destruct (get_frame_wrong_length (scope_ds2 false false) [[x00; x01; x02]] Hne)
    as [[_ H]|(frame16 & row & Hv & _)]; [exact H | discriminate Hv].
Defined.

(** C7.  For a frame that was read and whose meta row is present: with
    [sync_with_recording] off the frame is delivered whatever its
    recording flag; with [sync_with_recording] on it is delivered if and
    only if the sample at [frame_record_flag_offset] is [0xAD0]. *)
Theorem sync_gate (ds p : Z) (self : isx_scope) (raw : list (list byte))
    (frame16 : frame16_t) (row : list Z) :
  isx_set_defaults ds = Ok (geom self, p) ->
  view_uint16 raw = Ok frame16 ->
  np_index frame16 (header_row_with_meta (geom self)) = Ok row ->
  let frame :=
    np_slice frame16 (isx_header_offset (geom self)) (isx_footer_offset (geom self)) in
  let self' := snd (update_frame_stats self row) in
  (sync_with_recording self = false ->
   fst (get_frame self true raw) = Some (frame_statistics self', frame))
  /\ (forall s0 s1 s2 s3 fb,
        np_index row (frame_counter_offset (geom self)) = Ok s0 ->
        np_index row (frame_counter_offset (geom self) + 1) = Ok s1 ->
        np_index row (frame_counter_offset (geom self) + 2) = Ok s2 ->
        np_index row (frame_counter_offset (geom self) + 3) = Ok s3 ->
        np_index row (frame_record_flag_offset (geom self)) = Ok fb ->
        sync_with_recording self = true ->
        isxd_record (frame_statistics self') = (fb =? 0xAD0)
        /\ (fb = 0xAD0 ->
            fst (get_frame self true raw) = Some (frame_statistics self', frame))
        /\ (fb <> 0xAD0 -> fst (get_frame self true raw) = None)).
Proof.
  intros Hd Hv Hr. cbv zeta.
  rewrite (get_frame_read self raw frame16 row Hv Hr). unfold deliver.
  split.
  - intros ->. cbn [andb fst]. reflexivity.
  - intros s0 s1 s2 s3 fb R0 R1 R2 R3 Rf ->.
    rewrite (update_frame_stats_decoded self row s0 s1 s2 s3 fb R0 R1 R2 R3 Rf).
    destruct (isx_set_defaults_fields ds _ p Hd) as (-> & _ & _).
    cbn [fst snd set_prev set_stats frame_statistics isxd_record andb].
    split; [reflexivity|].
    split; intros Hfb.
    + subst fb. reflexivity.
    + apply Z.eqb_neq in Hfb. rewrite Hfb. reflexivity.
Qed.

Lemma sync_gate_witness :
  let raw fb := raw_of_frame16 (frame_ds2 2 (header_row_ds2 fb 0x640 0 0 0)) in
  fst (get_frame (scope_ds2 false false) true (raw 0))
    = Some ({| missing_frames_range := []; seq_id := 100; isxd_record := false |}, [])
  /\ fst (get_frame (scope_ds2 false true) true (raw 0xAD0))
    = Some ({| missing_frames_range := []; seq_id := 100; isxd_record := true |}, [])
  /\ fst (get_frame (scope_ds2 false true) true (raw 0)) = None.
Proof.
  cbv zeta.
  assert (Hv : forall fb, fb = 0 \/ fb = 0xAD0 ->
            view_uint16 (raw_of_frame16 (frame_ds2 2 (header_row_ds2 fb 0x640 0 0 0)))
            = Ok (frame_ds2 2 (header_row_ds2 fb 0x640 0 0 0))).
  { intros fb [->| ->]; vm_compute; reflexivity. }
  pose proof (sync_gate 2 0 (scope_ds2 false false) _ _
                (header_row_ds2 0 0x640 0 0 0) eq_refl (Hv 0 (or_introl eq_refl)) eq_refl)
    as Hoff.
  pose proof (sync_gate 2 0 (scope_ds2 false true) _ _
                (header_row_ds2 0xAD0 0x640 0 0 0) eq_refl (Hv 0xAD0 (or_intror eq_refl)) eq_refl)
    as Hon.
  pose proof (sync_gate 2 0 (scope_ds2 false true) _ _
                (header_row_ds2 0 0x640 0 0 0) eq_refl (Hv 0 (or_introl eq_refl)) eq_refl)
    as Hon0.
  cbv zeta in Hoff, Hon, Hon0.
  split; [|split].
  - rewrite (proj1 Hoff eq_refl). reflexivity.
  - destruct (proj2 Hon 0x640 0 0 0 0xAD0 eq_refl eq_refl eq_refl eq_refl eq_refl eq_refl)
      as (_ & H & _).
    rewrite (H eq_refl). reflexivity.
  - destruct (proj2 Hon0 0x640 0 0 0 0 eq_refl eq_refl eq_refl eq_refl eq_refl eq_refl)
      as (_ & _ & H).
    apply H. discriminate.
Defined.

(** C10.  A frame suppressed by the gate ([sync_with_recording] on,
    recording flag decoded as false) still moves [prev_frame_seq_id] to
    its counter and is not written to the storage file; the missing range
    of the next delivered frame is therefore computed from the
    suppressed frame's counter. *)
Theorem suppressed_frame_tracked
    (self : isx_scope)
    (raw1 : list (list byte)) (f1 : frame16_t) (row1 : list Z) (s0 s1 s2 s3 fb : Z)
    (raw2 : list (list byte)) (f2 : frame16_t) (row2 : list Z) (t0 t1 t2 t3 tb : Z) :
  sync_with_recording self = true ->
  view_uint16 raw1 = Ok f1 ->
  np_index f1 (header_row_with_meta (geom self)) = Ok row1 ->
  np_index row1 (frame_counter_offset (geom self)) = Ok s0 ->
  np_index row1 (frame_counter_offset (geom self) + 1) = Ok s1 ->
  np_index row1 (frame_counter_offset (geom self) + 2) = Ok s2 ->
  np_index row1 (frame_counter_offset (geom self) + 3) = Ok s3 ->
  np_index row1 (frame_record_flag_offset (geom self)) = Ok fb ->
  fb <> frame_record_flag_value (geom self) ->
  view_uint16 raw2 = Ok f2 ->
  np_index f2 (header_row_with_meta (geom self)) = Ok row2 ->
  np_index row2 (frame_counter_offset (geom self)) = Ok t0 ->
  np_index row2 (frame_counter_offset (geom self) + 1) = Ok t1 ->
  np_index row2 (frame_counter_offset (geom self) + 2) = Ok t2 ->
  np_index row2 (frame_counter_offset (geom self) + 3) = Ok t3 ->
  np_index row2 (frame_record_flag_offset (geom self)) = Ok tb ->
  tb = frame_record_flag_value (geom self) ->
  let r1 := get_frame self true raw1 in
  let r2 := get_frame (snd r1) true raw2 in
  let c1 := counter_exact s0 s1 s2 s3 in
  let c2 := counter_exact t0 t1 t2 t3 in
  fst r1 = None
  /\ prev_frame_seq_id (snd r1) = c1
  /\ file_pointer (snd r1) = file_pointer self
  /\ fst r2 =
       Some ({| missing_frames_range := missing_range c1 c2;
                seq_id := c2;
                isxd_record := true |},
             np_slice f2 (isx_header_offset (geom self))
                         (isx_footer_offset (geom self))).
Proof.
  intros Hsync Hv1 Hr1 R0 R1 R2 R3 Rf Hfb Hv2 Hr2 T0 T1 T2 T3 Tf Htb. cbv zeta.
  rewrite (get_frame_read self raw1 f1 row1 Hv1 Hr1). unfold deliver at 1 2 3 4.
  rewrite (update_frame_stats_decoded self row1 s0 s1 s2 s3 fb R0 R1 R2 R3 Rf).
  apply Z.eqb_neq in Hfb. rewrite Hsync, Hfb. cbn [fst snd negb andb].
  set (self1 := set_prev _ _).
  assert (Hg : geom self1 = geom self) by reflexivity.
  split; [reflexivity|]. split; [reflexivity|]. split; [reflexivity|].
  rewrite <- Hg in Hr2, T0, T1, T2, T3, Tf.
  rewrite (get_frame_read self1 raw2 f2 row2 Hv2 Hr2). unfold deliver.
  rewrite (update_frame_stats_decoded self1 row2 t0 t1 t2 t3 tb T0 T1 T2 T3 Tf).
  rewrite Hg, Htb, Z.eqb_refl. cbn [fst snd negb andb].
  rewrite andb_false_r. reflexivity.
Qed.

Lemma suppressed_frame_tracked_witness :
  let self := set_prev (scope_ds2 true true) 7 in
  let raw1 := raw_of_frame16 (frame_ds2 2 (header_row_ds2 0 0x640 0 0 0)) in
  let raw2 := raw_of_frame16 (frame_ds2 2 (header_row_ds2 0xAD0 0x670 0 0 0)) in
  let r1 := get_frame self true raw1 in
  let r2 := get_frame (snd r1) true raw2 in
  fst r1 = None
  /\ prev_frame_seq_id (snd r1) = 100
  /\ file_pointer (snd r1) = []
  /\ fst r2 =
       Some ({| missing_frames_range := [101; 102]; seq_id := 103;
                isxd_record := true |}, []).
Proof.
  cbv zeta.
  assert (Hv1 : view_uint16 (raw_of_frame16 (frame_ds2 2 (header_row_ds2 0 0x640 0 0 0)))
                = Ok (frame_ds2 2 (header_row_ds2 0 0x640 0 0 0)))
    by (vm_compute; reflexivity).
  assert (Hv2 : view_uint16 (raw_of_frame16 (frame_ds2 2 (header_row_ds2 0xAD0 0x670 0 0 0)))
                = Ok (frame_ds2 2 (header_row_ds2 0xAD0 0x670 0 0 0)))
    by (vm_compute; reflexivity).
  assert (Hne : 0 <> frame_record_flag_value (geom (set_prev (scope_ds2 true true) 7)))
    by (vm_compute; discriminate).
  exact (suppressed_frame_tracked (set_prev (scope_ds2 true true) 7)
           _ _ (header_row_ds2 0 0x640 0 0 0) 0x640 0 0 0 0
           _ _ (header_row_ds2 0xAD0 0x670 0 0 0) 0x670 0 0 0 0xAD0
           eq_refl Hv1 eq_refl eq_refl eq_refl eq_refl eq_refl eq_refl Hne
           Hv2 eq_refl eq_refl eq_refl eq_refl eq_refl eq_refl eq_refl).
Defined.

(** C6.  For every 32-bit counter and every flag, the frame buffer that
    holds counter byte [i] as the sample [byte_i << 4] at column
    [frame_counter_offset + i] of the meta row, and the sample [0xAD0] at
    column [frame_record_flag_offset] exactly when the flag is set,
    decodes to that counter and that flag. *)
Theorem encode_decode_roundtrip
    (ds p : Z) (self : isx_scope) (counter : Z) (flag : bool) (idle : Z)
    (f : frame16_t) (row : list Z) :
  0 < ds -> (ds | 1280) -> (ds | 800) ->
  isx_set_defaults ds = Ok (geom self, p) ->
  0 <= counter < 2 ^ 32 ->
  0 <= idle < 2 ^ 16 -> idle <> 0xAD0 ->
  f !! Z.to_nat (header_row_with_meta (geom self)) = Some row ->
  Z.of_nat (length row) = stream_width (geom self) ->
  let self' := snd (get_frame self true (encode_frame (geom self) counter flag idle f)) in
  seq_id (frame_statistics self') = counter
  /\ isxd_record (frame_statistics self') = flag.
Proof.
  intros Hpos H1 H2 Hd Hc Hidle Hne Hrow Hlen. cbv zeta.
  destruct (valid_factor_geometry ds Hpos H1 H2) as (g & Hg & Hok).
  rewrite Hd in Hg. injection Hg as Hg _. rewrite <- Hg in Hok.
  apply geometry_ok_spec in Hok as (_ & _ & Hm & Hc0 & Hc3 & Hfl & _).
  destruct (isx_set_defaults_fields ds _ p Hd) as (Hfv & Hfc & _).
  set (row' := encode_row (geom self) counter flag idle row).
  assert (Hv : view_uint16 (encode_frame (geom self) counter flag idle f)
               = Ok (map (map (fun s => s mod 65536))
                       (alter (encode_row (geom self) counter flag idle)
                          (Z.to_nat (header_row_with_meta (geom self))) f)))
    by apply view_uint16_raw.
  assert (Hr : np_index
                 (map (map (fun s => s mod 65536))
                    (alter (encode_row (geom self) counter flag idle)
                       (Z.to_nat (header_row_with_meta (geom self))) f))
                 (header_row_with_meta (geom self))
               = Ok (map (fun s => s mod 65536) row')).
  { apply np_index_lookup; [lia|].
    rewrite lookup_map, list_lookup_alter_eq, Hrow. reflexivity. }
  rewrite (get_frame_read _ _ _ _ Hv Hr).
  destruct (deliver_statistics self
              (map (map (fun s => s mod 65536))
                 (alter (encode_row (geom self) counter flag idle)
                    (Z.to_nat (header_row_with_meta (geom self))) f))
              (map (fun s => s mod 65536) row')) as [-> _].
  change (2 ^ 16) with 65536 in Hidle.
  destruct (encode_row_reads (geom self) counter flag idle row
              ltac:(lia) Hfc ltac:(lia) Hidle) as (R0 & R1 & R2 & R3 & Rf).
  fold row' in R0, R1, R2, R3, Rf.
  rewrite (update_frame_stats_decoded self _ _ _ _ _ _ R0 R1 R2 R3 Rf).
  cbn [snd set_prev set_stats frame_statistics seq_id isxd_record].
  split; [apply counter_exact_bytes; exact Hc|].
  rewrite Hfv. destruct flag; [reflexivity|].
  apply Z.eqb_neq. exact Hne.
Qed.

Lemma encode_decode_roundtrip_witness :
  let self := scope_ds2 false false in
  let f := replicate 2 (replicate 640 0xAD0) in
  let self' :=
    snd (get_frame self true (encode_frame (geom self) 0xDEADBEEF false 0 f)) in
  seq_id (frame_statistics self') = 0xDEADBEEF
  /\ isxd_record (frame_statistics self') = false.
Proof.
  apply (encode_decode_roundtrip 2 0 (scope_ds2 false false) 0xDEADBEEF false 0
           (replicate 2 (replicate 640 0xAD0)) (replicate 640 0xAD0)).
  - lia.
  - exists 640. reflexivity.
  - exists 400. reflexivity.
  - reflexivity.
  - lia.
  - lia.
  - discriminate.
  - reflexivity.
  - reflexivity.
Defined.

(** * Further properties *)

(** ** The 16-bit view *)

Lemma sample_of_bytes_bound (lo hi : byte) : 0 <= sample_of_bytes lo hi < 65536.
Proof.
  unfold sample_of_bytes.
  pose proof (Byte.to_N_bounded lo). pose proof (Byte.to_N_bounded hi). lia.
Qed.

Lemma view_row_Ok_inv (r : list byte) (l : list Z) :
  view_row r = Ok l ->
  length r = (2 * length l)%nat /\ Forall (fun s => 0 <= s < 65536) l.
Proof.
  revert r. induction l as [|s l IH]; intros r H.
  - destruct r as [|a [|b r]]; cbn in H; [split; [reflexivity|constructor] | discriminate |].
    destruct (view_row r); discriminate.
  - destruct r as [|a [|b r]]; cbn in H; try discriminate.
    destruct (view_row r) as [l'|e] eqn:E; cbn in H; [|discriminate].
    injection H as <- <-. destruct (IH r E) as [Hlen Hall].
    split; [cbn; lia|]. constructor; [apply sample_of_bytes_bound | exact Hall].
Qed.

Lemma view_row_even (k : nat) (r : list byte) :
  length r = (2 * k)%nat -> exists l, view_row r = Ok l /\ length l = k.
Proof.
  revert r. induction k as [|k IH]; intros r H.
  - destruct r; [|discriminate]. exists []. split; reflexivity.
  - destruct r as [|a [|b r]]; cbn in H; try lia.
    destruct (IH r ltac:(lia)) as (l & Hl & Hk).
    exists (sample_of_bytes a b :: l). cbn. rewrite Hl. cbn. split; [reflexivity|lia].
Qed.

Lemma view_row_odd (k : nat) (r : list byte) :
  length r = (2 * k + 1)%nat -> view_row r = Raise ValueError.
Proof.
  revert r. induction k as [|k IH]; intros r H.
  - destruct r as [|a [|b r]]; cbn in H; try lia. reflexivity.
  - destruct r as [|a [|b r]]; cbn in H; try lia.
    cbn. rewrite (IH r) by lia. reflexivity.
Qed.

Lemma view_uint16_Ok_inv (raw : list (list byte)) (f : frame16_t) :
  view_uint16 raw = Ok f -> Forall2 (fun r r16 => view_row r = Ok r16) raw f.
Proof.
  revert f. induction raw as [|r raw IH]; intros f H; cbn in H.
  - injection H as <-. constructor.
  - destruct (view_row r) as [r16|e] eqn:E; cbn in H; [|discriminate].
    destruct (view_uint16 raw) as [rest|e]; cbn in H; [|discriminate].
    injection H as <-. constructor; [exact E | apply IH; reflexivity].
Qed.

Lemma view_uint16_rows (w : nat) (raw : list (list byte)) :
  Forall (fun r => length r = (2 * w)%nat) raw ->
  exists f, view_uint16 raw = Ok f
            /\ length f = length raw
            /\ Forall (fun r16 => length r16 = w) f.
Proof.
  induction 1 as [|r raw Hr _ IH].
  - exists []. repeat split. constructor.
  - destruct (view_row_even w r Hr) as (l & Hl & Hw).
    destruct IH as (f & Hf & Hlen & Hall).
    exists (l :: f). cbn. rewrite Hl. cbn. rewrite Hf. cbn.
    split; [reflexivity|]. split; [lia|]. constructor; assumption.
Qed.

Lemma view_uint16_odd_row (raw : list (list byte)) (r : list byte) (k : nat) :
  r ∈ raw -> length r = (2 * k + 1)%nat -> exists e, view_uint16 raw = Raise e.
Proof.
  intros Hin Hodd. induction Hin as [r raw|r r' raw _ IH]; cbn.
  - rewrite (view_row_odd k r Hodd). cbn. eauto.
  - destruct (view_row r'); cbn; [|eauto].
    destruct (IH Hodd) as [e ->]. cbn. eauto.
Qed.

Lemma np_slice_inner {A : Type} (a : list A) (lo hi : Z) :
  0 <= lo <= hi -> hi <= Z.of_nat (length a) ->
  np_slice a lo hi = take (Z.to_nat (hi - lo)) (drop (Z.to_nat lo) a)
  /\ Z.of_nat (length (np_slice a lo hi)) = hi - lo.
Proof.
  intros H1 H2. unfold np_slice.
  destruct (Z.ltb_spec lo 0); [lia|]. destruct (Z.ltb_spec hi 0); [lia|].
  rewrite !Z.min_l by lia. split; [reflexivity|].
  rewrite length_take, length_drop. lia.
Qed.

Lemma np_index_in_range {A : Type} (a : list A) (i : Z) :
  0 <= i < Z.of_nat (length a) -> exists x, np_index a i = Ok x /\ a !! Z.to_nat i = Some x.
Proof.
  intros Hi.
  destruct (lookup_lt_is_Some_2 a (Z.to_nat i) ltac:(lia)) as [x Hx].
  exists x. split; [apply np_index_lookup; [lia|exact Hx] | exact Hx].
Qed.

Lemma np_index_elem {A : Type} (a : list A) (i : Z) (x : A) :
  np_index a i = Ok x -> x ∈ a.
Proof.
  unfold np_index. destruct (_ && _); [|discriminate].
  destruct (a !! Z.to_nat _) eqn:E; [|discriminate].
  intros [= <-]. eapply list_elem_of_lookup_2. exact E.
Qed.

(** ** Layout of the geometry *)

Lemma layout_check_all : forallb layout_check (map Z.of_nat (seq 1 160)) = true.
Proof. vm_compute. reflexivity. Qed.

Lemma isx_set_defaults_shape (ds : Z) (g : geometry) (p : Z) :
  isx_set_defaults ds = Ok (g, p) ->
  stream_width g = 1280 / ds
  /\ frame_width g = 2 * stream_width g
  /\ frame_height g = 2 * stream_height g
  /\ isx_footer_offset g = 800 / ds + isx_header_offset g.
Proof.
  unfold isx_set_defaults, floordiv, bind.
  repeat match goal with
         | |- context [if ?b then _ else _] => destruct b
         end; try discriminate.
  intros [= <- <-]. cbn [stream_width frame_width frame_height isx_footer_offset
                         isx_header_offset stream_height].
  change (4 / 2) with 2. repeat split; lia.
Qed.

(** For a positive factor that divides 1280 and 800, the pixel region
    is the sensor image divided by the factor ([1280 / ds] columns,
    [800 / ds] rows), header and footer take as many rows each, which
    together with the width hold two native lines of 1280 samples, the
    meta row is one of the header rows, and the frame size is four
    bytes for each pixel plus a fixed 20480 bytes of telemetry. *)
Theorem geometry_layout (ds : Z) (g : geometry) (p : Z) :
  0 < ds -> (ds | 1280) -> (ds | 800) ->
  isx_set_defaults ds = Ok (g, p) ->
  stream_width g * ds = 1280
  /\ (isx_footer_offset g - isx_header_offset g) * ds = 800
  /\ isx_header_offset g * stream_width g = 2 * 1280
  /\ stream_height g = 800 / ds + 2 * isx_header_offset g
  /\ 0 <= header_row_with_meta g < isx_header_offset g
  /\ frame_size_in_bytes g = 4 * ((1280 / ds) * (800 / ds)) + 20480.
Proof.
  intros Hpos H1 H2 Hd.
  pose proof (forallb_upto _ _ layout_check_all ds
                (common_divisor_bound ds Hpos H1 H2)) as Hc.
  unfold layout_check in Hc.
  rewrite (divides_native_spec ds Hpos H1 H2), Hd in Hc.
  destruct (valid_factor_geometry ds Hpos H1 H2) as (g' & Hg' & Hok).
  rewrite Hd in Hg'. injection Hg' as <- _.
  apply geometry_ok_spec in Hok as (_ & _ & Hm & _).
  unfold layout_ok in Hc.
  repeat (apply andb_true_iff in Hc as [Hc ?]).
  repeat match goal with
         | H : (_ =? _) = true |- _ => apply Z.eqb_eq in H
         | H : (_ <? _) = true |- _ => apply Z.ltb_lt in H
         end.
  repeat split; lia.
Qed.

Lemma geometry_layout_witness :
  exists g,
    isx_set_defaults 4 = Ok (g, 0)
    /\ stream_width g * 4 = 1280
    /\ (isx_footer_offset g - isx_header_offset g) * 4 = 800
    /\ isx_header_offset g * stream_width g = 2 * 1280
    /\ stream_height g = 800 / 4 + 2 * isx_header_offset g
    /\ 0 <= header_row_with_meta g < isx_header_offset g
    /\ frame_size_in_bytes g = 4 * ((1280 / 4) * (800 / 4)) + 20480.
Proof.
  eexists. split; [reflexivity|].
  apply (geometry_layout 4 _ 0).
  - lia.
  - exists 320. reflexivity.
  - exists 200. reflexivity.
  - reflexivity.
Defined.

(** ** Counter bytes *)

Lemma byte_bit_off (b m : Z) :
  0 <= b < 256 -> m < 0 \/ 8 <= m -> Z.testbit b m = false.
Proof.
  intros Hb [Hm|Hm]; [apply Z.testbit_neg_r; exact Hm|].
  destruct (Z.eq_dec b 0) as [->|]; [apply Z.bits_0|].
  apply Z.bits_above_log2; [lia|].
  assert (Z.log2 b < 8) by (apply Z.log2_lt_pow2; lia). lia.
Qed.

Section CounterBytes.

Variables b0 b1 b2 b3 : Z.
Hypothesis B0 : 0 <= b0 < 256.
Hypothesis B1 : 0 <= b1 < 256.
Hypothesis B2 : 0 <= b2 < 256.
Hypothesis B3 : 0 <= b3 < 256.

Let c := counter_exact (Z.shiftl b0 4) (Z.shiftl b1 4) (Z.shiftl b2 4) (Z.shiftl b3 4).

Lemma counter_byte_of_exact (i : Z) (b : Z) :
  (i = 0 /\ b = b0) \/ (i = 1 /\ b = b1) \/ (i = 2 /\ b = b2) \/ (i = 3 /\ b = b3) ->
  counter_byte c i = b.
Proof.
  intros Hi. unfold c, counter_exact, counter_byte. rewrite !shl4_shr4.
  apply Z.bits_inj'. intros n Hn.
  rewrite Z.land_spec, testbit_255, Z.shiftr_spec by lia.
  rewrite !Z.lor_spec, !Z.shiftl_spec by lia.
  destruct (Z.ltb_spec n 8).
  - rewrite andb_true_r.
    destruct Hi as [[-> ->]|[[-> ->]|[[-> ->]|[-> ->]]]].
    + rewrite (byte_bit_off b1), (byte_bit_off b2), (byte_bit_off b3) by (assumption || lia).
      rewrite !orb_false_r. f_equal. lia.
    + rewrite (byte_bit_off b0), (byte_bit_off b2), (byte_bit_off b3) by (assumption || lia).
      rewrite !orb_false_r. cbn [orb]. f_equal. lia.
    + rewrite (byte_bit_off b0), (byte_bit_off b1), (byte_bit_off b3) by (assumption || lia).
      rewrite !orb_false_r. cbn [orb]. f_equal. lia.
    + rewrite (byte_bit_off b0), (byte_bit_off b1), (byte_bit_off b2) by (assumption || lia).
      cbn [orb]. f_equal. lia.
  - rewrite andb_false_r. symmetry. apply byte_bit_off; [|lia].
    destruct Hi as [[_ ->]|[[_ ->]|[[_ ->]|[_ ->]]]]; assumption.
Qed.

End CounterBytes.

(** The counter bytes can be read back from a decoded counter: when the
    four counter samples are bytes shifted left by four bits, byte [i]
    of the decoded counter is the byte of sample [i], and the counter is
    a 32-bit value.  Distinct byte quadruples decode to distinct
    counters. *)
Theorem counter_bytes_recovered (self : isx_scope) (row : list Z) (b0 b1 b2 b3 fb : Z) :
  np_index row (frame_counter_offset (geom self)) = Ok (Z.shiftl b0 4) ->
  np_index row (frame_counter_offset (geom self) + 1) = Ok (Z.shiftl b1 4) ->
  np_index row (frame_counter_offset (geom self) + 2) = Ok (Z.shiftl b2 4) ->
  np_index row (frame_counter_offset (geom self) + 3) = Ok (Z.shiftl b3 4) ->
  np_index row (frame_record_flag_offset (geom self)) = Ok fb ->
  0 <= b0 < 256 -> 0 <= b1 < 256 -> 0 <= b2 < 256 -> 0 <= b3 < 256 ->
  let c := seq_id (frame_statistics (snd (update_frame_stats self row))) in
  counter_byte c 0 = b0 /\ counter_byte c 1 = b1
  /\ counter_byte c 2 = b2 /\ counter_byte c 3 = b3
  /\ 0 <= c < 2 ^ 32.
Proof.
  intros R0 R1 R2 R3 Rf B0 B1 B2 B3.
  rewrite (update_frame_stats_decoded self row _ _ _ _ fb R0 R1 R2 R3 Rf).
  cbn [snd set_prev set_stats frame_statistics seq_id]. cbv zeta.
  repeat split; try (apply counter_byte_of_exact; tauto).
  - apply Z.lor_nonneg. split; [|apply Z.shiftl_nonneg, Z.shiftr_nonneg, Z.shiftl_nonneg; lia].
    apply Z.lor_nonneg. split; [|apply Z.shiftl_nonneg, Z.shiftr_nonneg, Z.shiftl_nonneg; lia].
    apply Z.lor_nonneg. split; [|apply Z.shiftl_nonneg, Z.shiftr_nonneg, Z.shiftl_nonneg; lia].
    apply Z.shiftr_nonneg, Z.shiftl_nonneg; lia.
  - assert (S : forall b, 0 <= b < 256 -> 0 <= Z.shiftl b 4 < 2 ^ 12).
    { intros b Hb. rewrite Z.shiftl_mul_pow2 by lia.
      change (2 ^ 4) with 16. change (2 ^ 12) with 4096. lia. }
    assert (S16 : forall b, 0 <= b < 256 -> 0 <= Z.shiftl b 4 < 2 ^ 16).
    { intros b Hb. eapply pow2_le_bound; [|apply S; exact Hb]. lia. }
    rewrite <- (counter_u32_exact _ _ _ _ (S16 _ B0) (S16 _ B1) (S16 _ B2) (S16 _ B3))
      by (apply S; exact B3).
    unfold counter_u32, u32. apply Z.mod_pos_bound. lia.
Qed.

Lemma counter_bytes_recovered_witness :
  let c := seq_id (frame_statistics
                     (snd (update_frame_stats (scope_ds2 false false)
                             (header_row_ds2 0 0xEF0 0xBE0 0xAD0 0xDE0)))) in
  counter_byte c 0 = 0xEF /\ counter_byte c 1 = 0xBE
  /\ counter_byte c 2 = 0xAD /\ counter_byte c 3 = 0xDE
  /\ 0 <= c < 2 ^ 32.
Proof.
  apply (counter_bytes_recovered (scope_ds2 false false)
           (header_row_ds2 0 0xEF0 0xBE0 0xAD0 0xDE0) 0xEF 0xBE 0xAD 0xDE 0);
    first [reflexivity | lia].
Defined.

(** ** Sequences of header rows *)

Lemma row_counter_Ok_inv (g : geometry) (row : list Z) (c : Z) :
  row_counter g row = Ok c ->
  exists s0 s1 s2 s3 fb,
    np_index row (frame_counter_offset g) = Ok s0
    /\ np_index row (frame_counter_offset g + 1) = Ok s1
    /\ np_index row (frame_counter_offset g + 2) = Ok s2
    /\ np_index row (frame_counter_offset g + 3) = Ok s3
    /\ np_index row (frame_record_flag_offset g) = Ok fb
    /\ c = counter_exact s0 s1 s2 s3.
Proof.
  unfold row_counter.
  destruct (np_index row (frame_counter_offset g)) as [s0|]; cbn [bind]; [|discriminate].
  destruct (np_index row (frame_counter_offset g + 1)) as [s1|]; cbn [bind]; [|discriminate].
  destruct (np_index row (frame_counter_offset g + 2)) as [s2|]; cbn [bind]; [|discriminate].
  destruct (np_index row (frame_counter_offset g + 3)) as [s3|]; cbn [bind]; [|discriminate].
  destruct (np_index row (frame_record_flag_offset g)) as [fb|]; cbn [bind]; [|discriminate].
  intros [= <-]. exists s0, s1, s2, s3, fb. repeat split.
Qed.

Lemma update_frame_stats_counter (self : isx_scope) (row : list Z) (c : Z) :
  row_counter (geom self) row = Ok c ->
  let self' := snd (update_frame_stats self row) in
  geom self' = geom self
  /\ prev_frame_seq_id self' = c
  /\ seq_id (frame_statistics self') = c
  /\ missing_frames_range (frame_statistics self')
     = missing_range (prev_frame_seq_id self) c.
Proof.
  intros H. apply row_counter_Ok_inv in H
    as (s0 & s1 & s2 & s3 & fb & R0 & R1 & R2 & R3 & Rf & ->).
  rewrite (update_frame_stats_decoded self row s0 s1 s2 s3 fb R0 R1 R2 R3 Rf).
  cbn. repeat split.
Qed.

(** The ranges reported for a sequence of decodable header rows depend
    on the rows only through their counters: they are the gaps of the
    counter sequence, taken from the previous counter of the object. *)
Theorem track_gaps (self : isx_scope) (rows : list (list Z)) (cs : list Z) :
  Forall2 (fun row c => row_counter (geom self) row = Ok c) rows cs ->
  track self rows = gaps (prev_frame_seq_id self) cs.
Proof.
  intros H. revert self cs H.
  induction rows as [|row rows IH]; intros self cs H;
    inversion H as [|? c ? cs' Hc Hrest]; subst.
  - reflexivity.
  - cbn [track gaps].
    destruct (update_frame_stats_counter self row c Hc) as (Hg & Hp & _ & Hr).
    rewrite Hr. f_equal.
    rewrite (IH (snd (update_frame_stats self row)) cs'), Hp; [reflexivity|].
    rewrite Hg. exact Hrest.
Qed.

Lemma track_gaps_witness :
  let row c := header_row_ds2 0 (Z.shiftl c 4) 0 0 0 in
  track (scope_ds2 false false) [row 5; row 9; row 10] = gaps 0 [5; 9; 10].
Proof.
  apply (track_gaps (scope_ds2 false false)).
  repeat constructor.
Defined.

(** A run of frames with consecutive counters reports no missing range
    after its first frame, from any state of the tracker. *)
Theorem consecutive_counters_no_gap (self : isx_scope) (rows : list (list Z))
    (c : Z) (n : nat) :
  Forall2 (fun row c => row_counter (geom self) row = Ok c) rows (counters_from c (S n)) ->
  track self rows = missing_range (prev_frame_seq_id self) c :: replicate n [].
Proof.
  intros H. revert self c rows H.
  induction n as [|n IH]; intros self c rows H.
  - inversion H as [|row ? rows' ? Hc Hrest]; subst. inversion Hrest; subst.
    cbn [track].
    destruct (update_frame_stats_counter self row c Hc) as (_ & _ & _ & ->).
    reflexivity.
  - inversion H as [|row ? rows' ? Hc Hrest]; subst.
    destruct (update_frame_stats_counter self row c Hc) as (Hg & Hp & _ & Hr).
    cbn [track]. rewrite Hr. f_equal.
    rewrite (IH (snd (update_frame_stats self row)) (c + 1) rows')
      by (rewrite Hg; exact Hrest).
    rewrite Hp. unfold missing_range. rewrite Z.eqb_refl, orb_true_r. reflexivity.
Qed.

Lemma consecutive_counters_no_gap_witness :
  let row c := header_row_ds2 0xAD0 (Z.shiftl c 4) 0 0 0 in
  track (set_prev (scope_ds2 false false) 3) [row 7; row 8; row 9]
  = [[4; 6]; []; []].
Proof.
  apply (consecutive_counters_no_gap (set_prev (scope_ds2 false false) 3) _ 7 2).
  repeat constructor.
Defined.

(** A frame whose counter is zero resets the tracker: the frame after
    it reports no missing range, whatever its counter. *)
Theorem zero_counter_hides_gap (self : isx_scope) (row1 row2 : list Z) (c2 : Z) :
  row_counter (geom self) row1 = Ok 0 ->
  row_counter (geom self) row2 = Ok c2 ->
  let self1 := snd (update_frame_stats self row1) in
  let self2 := snd (update_frame_stats self1 row2) in
  prev_frame_seq_id self1 = 0
  /\ missing_frames_range (frame_statistics self2) = []
  /\ prev_frame_seq_id self2 = c2.
Proof.
  intros H1 H2. cbv zeta.
  destruct (update_frame_stats_counter self row1 0 H1) as (Hg & Hp & _ & _).
  rewrite <- Hg in H2.
  destruct (update_frame_stats_counter _ row2 c2 H2) as (_ & Hp2 & _ & Hr2).
  rewrite Hr2, Hp. repeat split; assumption.
Qed.

Lemma zero_counter_hides_gap_witness :
  let self := set_prev (scope_ds2 false false) 41 in
  let self1 := snd (update_frame_stats self (header_row_ds2 0 0 0 0 0)) in
  let self2 := snd (update_frame_stats self1 (header_row_ds2 0 0x640 0 0 0)) in
  prev_frame_seq_id self1 = 0
  /\ missing_frames_range (frame_statistics self2) = []
  /\ prev_frame_seq_id self2 = 100.
Proof.
  apply (zero_counter_hides_gap (set_prev (scope_ds2 false false) 41)
           (header_row_ds2 0 0 0 0 0) (header_row_ds2 0 0x640 0 0 0) 100);
    reflexivity.
Defined.

(** A reported range is in order exactly when the counter moved forward
    by two or more, and then it spans the [c - prev - 1] counters in
    between; a repeated or older counter gives a range whose upper bound
    is below its lower bound. *)
Theorem missing_range_orientation (self : isx_scope) (row : list Z) (c : Z) :
  row_counter (geom self) row = Ok c ->
  prev_frame_seq_id self <> 0 ->
  c <> prev_frame_seq_id self + 1 ->
  exists lo hi,
    missing_frames_range (frame_statistics (snd (update_frame_stats self row))) = [lo; hi]
    /\ hi - lo + 1 = c - prev_frame_seq_id self - 1
    /\ (lo <= hi <-> prev_frame_seq_id self + 1 < c)
    /\ (c <= prev_frame_seq_id self -> hi < lo).
Proof.
  intros Hc Hp Hn.
  destruct (update_frame_stats_counter self row c Hc) as (_ & _ & _ & ->).
  unfold missing_range.
  destruct (Z.eqb_spec (prev_frame_seq_id self) 0); [contradiction|].
  destruct (Z.eqb_spec c (prev_frame_seq_id self + 1)); [contradiction|].
  cbn [orb]. eexists _, _. split; [reflexivity|]. lia.
Qed.

Lemma missing_range_orientation_witness :
  exists lo hi,
    missing_frames_range
      (frame_statistics
         (snd (update_frame_stats (set_prev (scope_ds2 false false) 100)
                 (header_row_ds2 0 0x640 0 0 0)))) = [lo; hi]
    /\ hi - lo + 1 = 100 - 100 - 1
    /\ (lo <= hi <-> 100 + 1 < 100)
    /\ (100 <= 100 -> hi < lo).
Proof.
  apply (missing_range_orientation (set_prev (scope_ds2 false false) 100)
           (header_row_ds2 0 0x640 0 0 0) 100).
  - reflexivity.
  - discriminate.
  - discriminate.
Defined.

(** ** Calls of [get_frame] *)

Lemma update_frame_stats_cases (self : isx_scope) (row : list Z) :
  ((exists e, row_counter (geom self) row = Raise e)
   /\ update_frame_stats self row = (false, self))
  \/ (exists s0 s1 s2 s3 fb,
        np_index row (frame_counter_offset (geom self)) = Ok s0
        /\ np_index row (frame_counter_offset (geom self) + 1) = Ok s1
        /\ np_index row (frame_counter_offset (geom self) + 2) = Ok s2
        /\ np_index row (frame_counter_offset (geom self) + 3) = Ok s3
        /\ np_index row (frame_record_flag_offset (geom self)) = Ok fb).
Proof.
  unfold update_frame_stats, update_frame_stats_body, row_counter.
  destruct (np_index row (frame_counter_offset (geom self))) as [s0|];
    cbn [bind]; [|left; eauto].
  destruct (np_index row (frame_counter_offset (geom self) + 1)) as [s1|];
    cbn [bind]; [|left; eauto].
  destruct (np_index row (frame_counter_offset (geom self) + 2)) as [s2|];
    cbn [bind]; [|left; eauto].
  destruct (np_index row (frame_counter_offset (geom self) + 3)) as [s3|];
    cbn [bind]; [|left; eauto].
  destruct (np_index row (frame_record_flag_offset (geom self))) as [fb|];
    cbn [bind]; [|left; eauto].
  right. exists s0, s1, s2, s3, fb. repeat split.
Qed.

Lemma update_frame_stats_undecodable (self : isx_scope) (row : list Z) (e : exn) :
  row_counter (geom self) row = Raise e -> update_frame_stats self row = (false, self).
Proof.
  intros H. destruct (update_frame_stats_cases self row)
    as [[_ Hu]|(s0 & s1 & s2 & s3 & fb & R0 & R1 & R2 & R3 & Rf)]; [exact Hu|].
  unfold row_counter in H. rewrite R0, R1, R2, R3, Rf in H. discriminate.
Qed.

Lemma view_uint16_row_bounded (raw : list (list byte)) (frame16 : frame16_t)
    (row : list Z) :
  view_uint16 raw = Ok frame16 -> row ∈ frame16 ->
  Forall (fun s => 0 <= s < 65536) row.
Proof.
  intros Hv Hin. apply view_uint16_Ok_inv in Hv.
  apply list_elem_of_lookup_1 in Hin as [i Hi].
  destruct (Forall2_lookup_r _ _ _ _ _ Hv Hi) as (r & _ & Hr).
  apply view_row_Ok_inv in Hr. apply Hr.
Qed.


(** A header row that cannot be decoded does not stop the frame: with
    the gate off the frame is delivered with the statistics of the
    previous frame, unchanged; with the gate on it is dropped.  The
    tracker is untouched in both cases. *)
Theorem get_frame_undecodable_header (self : isx_scope) (raw : list (list byte))
    (frame16 : frame16_t) (row : list Z) (e : exn) :
  view_uint16 raw = Ok frame16 ->
  np_index frame16 (header_row_with_meta (geom self)) = Ok row ->
  row_counter (geom self) row = Raise e ->
  let frame :=
    np_slice frame16 (isx_header_offset (geom self)) (isx_footer_offset (geom self)) in
  let r := get_frame self true raw in
  (sync_with_recording self = false ->
   fst r = Some (frame_statistics self, frame))
  /\ (sync_with_recording self = true -> r = (None, self))
  /\ prev_frame_seq_id (snd r) = prev_frame_seq_id self
  /\ frame_statistics (snd r) = frame_statistics self.
Proof.
  intros Hv Hr He. cbv zeta.
  rewrite (get_frame_read self raw frame16 row Hv Hr). unfold deliver.
  rewrite (update_frame_stats_undecodable self row e He). cbn [fst snd negb].
  destruct (sync_with_recording self); cbn [andb].
  - repeat split; discriminate.
  - destruct (file_storage self); repeat split; discriminate.
Qed.

Lemma get_frame_undecodable_header_witness :
  let self := set_prev (scope_ds2 false false) 9 in
  let raw := raw_of_frame16 [[1; 2]; [3; 4]; [5; 6]] in
  fst (get_frame self true raw) = Some (frame_statistics self, [])
  /\ prev_frame_seq_id (snd (get_frame self true raw)) = 9.
Proof.
  destruct (get_frame_undecodable_header (set_prev (scope_ds2 false false) 9)
              (raw_of_frame16 [[1; 2]; [3; 4]; [5; 6]])
              [[1; 2]; [3; 4]; [5; 6]] [3; 4] IndexError
              eq_refl eq_refl eq_refl) as (Hoff & _ & Hp & _).
  split; [exact (Hoff eq_refl) | exact Hp].
Defined.

(** A buffer with a row of an odd number of bytes is dropped: the
    result is [(None, None)] and the object is unchanged. *)
Theorem get_frame_odd_row (self : isx_scope) (ret : bool) (raw : list (list byte))
    (r : list byte) (k : nat) :
  r ∈ raw -> length r = (2 * k + 1)%nat ->
  get_frame self ret raw = (None, self).
Proof.
  intros Hin Hodd. destruct ret; [|reflexivity].
  apply get_frame_unreadable. left.
  exact (view_uint16_odd_row raw r k Hin Hodd).
Qed.

Lemma get_frame_odd_row_witness :
  get_frame (scope_ds2 true false) true [[x00; x01]; [x02; x03; x04]]
  = (None, scope_ds2 true false).
Proof.
  apply (get_frame_odd_row (scope_ds2 true false) true
           [[x00; x01]; [x02; x03; x04]] [x02; x03; x04] 1).
  - apply list_elem_of_further, list_elem_of_here.
  - reflexivity.
Defined.

Lemma get_frame_effect (self : isx_scope) (ret : bool) (raw : list (list byte)) :
  let r := get_frame self ret raw in
  geom (snd r) = geom self
  /\ sync_with_recording (snd r) = sync_with_recording self
  /\ file_storage (snd r) = file_storage self
  /\ file_pointer (snd r)
     = file_pointer self
       ++ (if file_storage self then delivered_frames [fst r] else []).
Proof.
  cbv zeta.
  assert (Hsame : forall self0 : isx_scope,
            file_pointer self0
            = file_pointer self0
              ++ (if file_storage self0 then delivered_frames [None] else [])).
  { intros self0. destruct (file_storage self0); cbn; rewrite app_nil_r; reflexivity. }
  destruct ret; [|cbn [get_frame get_frame_body negb fst snd]; auto].
  destruct (view_uint16 raw) as [frame16|e] eqn:Hv.
  - destruct (np_index frame16 (header_row_with_meta (geom self))) as [row|e] eqn:Hr.
    + rewrite (get_frame_read self raw frame16 row Hv Hr). unfold deliver.
      pose proof (update_frame_stats_flags self row) as (Hg & Hs & Hf & Hp).
      destruct (sync_with_recording self && negb (fst (update_frame_stats self row)));
        cbn [fst snd].
      * rewrite Hp. auto.
      * destruct (file_storage self); cbn; rewrite ?Hp, ?app_nil_r; auto.
    + rewrite (get_frame_unreadable self raw) by (right; exists frame16, e; auto).
      cbn [fst snd]. auto.
  - rewrite (get_frame_unreadable self raw) by (left; eauto).
    cbn [fst snd]. auto.
Qed.

Lemma delivered_frames_cons (o : option (statistics * frame16_t))
    (outs : list (option (statistics * frame16_t))) :
  delivered_frames (o :: outs) = delivered_frames [o] ++ delivered_frames outs.
Proof. destruct o as [[st f]|]; reflexivity. Qed.

(** Over any sequence of calls the configuration of the object (the
    geometry and the two flags) never changes, and the storage file
    receives exactly the frames that were delivered, in order: nothing
    when storage is disabled, and never a frame the gate dropped. *)
Theorem get_frames_storage (self : isx_scope) (reads : list (bool * list (list byte))) :
  let r := get_frames self reads in
  geom (snd r) = geom self
  /\ sync_with_recording (snd r) = sync_with_recording self
  /\ file_storage (snd r) = file_storage self
  /\ file_pointer (snd r)
     = file_pointer self
       ++ (if file_storage self then delivered_frames (fst r) else []).
Proof.
  cbv zeta. revert self.
  induction reads as [|[ret raw] reads IH]; intros self.
  - cbn [get_frames fst snd delivered_frames].
    destruct (file_storage self); rewrite app_nil_r; auto.
  - cbn [get_frames fst snd].
    destruct (get_frame_effect self ret raw) as (Hg & Hs & Hf & Hp).
    destruct (IH (snd (get_frame self ret raw))) as (Hg' & Hs' & Hf' & Hp').
    rewrite Hg', Hs', Hf', Hp', Hg, Hs, Hf, Hp.
    repeat split.
    rewrite (delivered_frames_cons (fst (get_frame self ret raw))
               (fst (get_frames (snd (get_frame self ret raw)) reads))).
    destruct (file_storage self); rewrite <- ?app_assoc, ?app_nil_r; reflexivity.
Qed.

(** ** Full-size frames *)

Section FullFrame.

Variables ds p : Z.
Variable self : isx_scope.
Variable raw : list (list byte).

Hypothesis ds_pos : 0 < ds.
Hypothesis ds_width : (ds | 1280).
Hypothesis ds_height : (ds | 800).
Hypothesis defaults : isx_set_defaults ds = Ok (geom self, p).
Hypothesis raw_rows : Z.of_nat (length raw) = frame_height (geom self).
Hypothesis raw_cols :
  Forall (fun r => Z.of_nat (length r) = frame_width (geom self)) raw.

Lemma full_frame_view :
  exists frame16 row,
    view_uint16 raw = Ok frame16
    /\ Z.of_nat (length frame16) = frame_height (geom self)
    /\ Forall (fun r16 => Z.of_nat (length r16) = stream_width (geom self)) frame16
    /\ np_index frame16 (header_row_with_meta (geom self)) = Ok row
    /\ Z.of_nat (length row) = stream_width (geom self)
    /\ Forall (fun s => 0 <= s < 65536) row.
Proof.
  destruct (valid_factor_geometry ds ds_pos ds_width ds_height) as (g & Hg & Hok).
  rewrite defaults in Hg. injection Hg as Hg _. rewrite <- Hg in Hok. clear g Hg.
  apply geometry_ok_spec in Hok as (Hh & Hf & Hm & Hc0 & Hc3 & Hfl & _).
  destruct (isx_set_defaults_shape ds _ p defaults) as (Hw & Hfw & Hfh & Hfo).
  assert (Hcols : Forall (fun r => length r
                          = (2 * Z.to_nat (stream_width (geom self)))%nat) raw).
  { eapply Forall_impl; [exact raw_cols|]. cbv beta. intros r Hr. lia. }
  destruct (view_uint16_rows _ raw Hcols) as (frame16 & Hv & Hlen & Hall).
  assert (Hall' : Forall (fun r16 => Z.of_nat (length r16) = stream_width (geom self))
                    frame16).
  { eapply Forall_impl; [exact Hall|]. cbv beta. intros r Hr. lia. }
  destruct (np_index_in_range frame16 (header_row_with_meta (geom self)) ltac:(lia))
    as (row & Hrow & Hlook).
  exists frame16, row.
  split; [exact Hv|]. split; [lia|]. split; [exact Hall'|]. split; [exact Hrow|].
  split.
  - exact (Forall_lookup_1 _ _ _ _ Hall' Hlook).
  - eapply view_uint16_row_bounded; [exact Hv|].
    eapply list_elem_of_lookup_2. exact Hlook.
Qed.


(** The pixel region of a full-size frame: whenever such a frame is
    delivered, and it always is with the gate off, the frame handed to
    the caller has [800 / ds] rows of [1280 / ds] samples each. *)
Theorem full_frame_pixel_region :
  (sync_with_recording self = false -> fst (get_frame self true raw) <> None)
  /\ (forall st frame,
        fst (get_frame self true raw) = Some (st, frame) ->
        Z.of_nat (length frame) = 800 / ds
        /\ Forall (fun r16 => Z.of_nat (length r16) = 1280 / ds) frame).
Proof.
  destruct (valid_factor_geometry ds ds_pos ds_width ds_height) as (g & Hg & Hok).
  rewrite defaults in Hg. injection Hg as Hg _. rewrite <- Hg in Hok. clear g Hg.
  apply geometry_ok_spec in Hok as (Hh & Hf & _).
  destruct (isx_set_defaults_shape ds _ p defaults) as (Hw & Hfw & Hfh & Hfo).
  destruct full_frame_view as (frame16 & row & Hv & Hrows & Hcols & Hrow & _).
  rewrite (get_frame_read self raw frame16 row Hv Hrow). unfold deliver.
  assert (H800 : 0 <= 800 / ds) by (apply Z.div_pos; lia).
  destruct (np_slice_inner frame16 (isx_header_offset (geom self))
              (isx_footer_offset (geom self)) ltac:(lia) ltac:(lia)) as [Hs Hl].
  split.
  - intros ->. cbn [andb]. discriminate.
  - intros st frame.
    destruct (sync_with_recording self && negb (fst (update_frame_stats self row)));
      cbn [fst]; [discriminate|].
    intros [= _ <-]. split; [lia|].
    rewrite Hs, <- Hw. apply Forall_take, Forall_drop. exact Hcols.
Qed.

End FullFrame.


Lemma full_frame_pixel_region_witness :
  fst (get_frame (scope_ds2 false false) true (replicate 816 (replicate 1280 x20)))
  <> None.
Proof.
  apply (full_frame_pixel_region 2 0 (scope_ds2 false false)
           (replicate 816 (replicate 1280 x20))).
  - lia.
  - exists 640. reflexivity.
  - exists 400. reflexivity.
  - reflexivity.
  - rewrite length_replicate. reflexivity.
  - apply Forall_replicate. rewrite length_replicate. reflexivity.
  - reflexivity.
Defined.

(** ** The tracker over a session *)

Lemma tracker_ok_update (self : isx_scope) (row : list Z) :
  tracker_ok self = true ->
  Forall (fun s => 0 <= s < 65536) row ->
  tracker_ok (snd (update_frame_stats self row)) = true.
Proof.
  intros Hok Hb.
  destruct (update_frame_stats_cases self row)
    as [[_ ->]|(s0 & s1 & s2 & s3 & fb & R0 & R1 & R2 & R3 & Rf)]; [exact Hok|].
  rewrite (update_frame_stats_decoded self row s0 s1 s2 s3 fb R0 R1 R2 R3 Rf).
  assert (Hin : forall i s, np_index row i = Ok s -> 0 <= s < 2 ^ 16).
  { intros i s Hs. apply np_index_elem in Hs.
    rewrite Forall_forall in Hb. exact (Hb s Hs). }
  pose proof (counter_exact_bound s0 s1 s2 s3
                (Hin _ _ R0) (Hin _ _ R1) (Hin _ _ R2) (Hin _ _ R3)) as Hc.
  unfold tracker_ok.
  cbn [snd set_prev set_stats frame_statistics seq_id prev_frame_seq_id
       missing_frames_range].
  rewrite Z.eqb_refl. cbn [andb].
  rewrite (proj2 (in_range_spec _ _) Hc). cbn [andb].
  unfold missing_range.
  destruct (Z.eqb_spec (prev_frame_seq_id self) 0) as [|Hp]; cbn [orb]; [reflexivity|].
  destruct (counter_exact s0 s1 s2 s3 =? prev_frame_seq_id self + 1); [reflexivity|].
  rewrite Z.eqb_refl. cbn [andb].
  destruct (Z.eqb_spec (prev_frame_seq_id self + 1) 1); [lia|reflexivity].
Qed.

Lemma tracker_ok_get_frame (self : isx_scope) (ret : bool) (raw : list (list byte)) :
  tracker_ok self = true -> tracker_ok (snd (get_frame self ret raw)) = true.
Proof.
  intros Hok. destruct ret; [|exact Hok].
  destruct (view_uint16 raw) as [frame16|e] eqn:Hv.
  - destruct (np_index frame16 (header_row_with_meta (geom self))) as [row|e] eqn:Hr.
    + rewrite (get_frame_read self raw frame16 row Hv Hr). unfold deliver.
      assert (Hu : tracker_ok (snd (update_frame_stats self row)) = true).
      { apply tracker_ok_update; [exact Hok|].
        eapply view_uint16_row_bounded; [exact Hv|].
        eapply np_index_elem. exact Hr. }
      destruct (sync_with_recording self && negb (fst (update_frame_stats self row)));
        [exact Hu|].
      destruct (file_storage self); exact Hu.
    + rewrite (get_frame_unreadable self raw) by (right; exists frame16, e; auto).
      exact Hok.
  - rewrite (get_frame_unreadable self raw) by (left; eauto). exact Hok.
Qed.

(** After any sequence of calls on a freshly built object, whatever the
    buffers were, the tracker is coherent: [prev_frame_seq_id] is the
    counter of the stored statistics, that counter lies in [[0, 2^36)],
    and the stored missing range is empty or a pair that ends at the
    counter minus one and does not start at 1. *)
Theorem tracker_invariant (ds : Z) (storage sync : bool) (self0 : isx_scope)
    (reads : list (bool * list (list byte))) :
  init ds storage sync = Ok self0 ->
  let self := snd (get_frames self0 reads) in
  let st := frame_statistics self in
  prev_frame_seq_id self = seq_id st
  /\ 0 <= seq_id st < 2 ^ 36
  /\ (missing_frames_range st = []
      \/ exists lo, missing_frames_range st = [lo; seq_id st - 1] /\ lo <> 1).
Proof.
  intros Hinit. cbv zeta.
  assert (H0 : tracker_ok self0 = true).
  { unfold init in Hinit.
    destruct (isx_set_defaults_total ds) as [[g Hg]|Hg];
      rewrite Hg in Hinit; cbn in Hinit; [|discriminate].
    injection Hinit as <-. reflexivity. }
  assert (H : tracker_ok (snd (get_frames self0 reads)) = true).
  { clear Hinit. revert self0 H0.
    induction reads as [|[ret raw] reads IH]; intros self0 H0; [exact H0|].
    cbn [get_frames snd]. apply IH. apply tracker_ok_get_frame. exact H0. }
  unfold tracker_ok in H.
  apply andb_true_iff in H as [H Hr]. apply andb_true_iff in H as [Hp Hc].
  apply Z.eqb_eq in Hp. apply in_range_spec in Hc.
  split; [exact Hp|]. split; [exact Hc|].
  destruct (missing_frames_range (frame_statistics (snd (get_frames self0 reads))))
    as [|lo [|hi [|x l]]]; try discriminate; [left; reflexivity|].
  right. exists lo.
  apply andb_true_iff in Hr as [Hhi Hlo].
  apply Z.eqb_eq in Hhi. apply negb_true_iff, Z.eqb_neq in Hlo.
  subst hi. split; [reflexivity | exact Hlo].
Qed.

Lemma tracker_invariant_witness :
  let reads :=
    [(true, raw_of_frame16 (frame_ds2 2 (header_row_ds2 0 0x640 0 0 0)));
     (false, []);
     (true, raw_of_frame16 (frame_ds2 2 (header_row_ds2 0 0x690 0 0 0)))] in
  let self := snd (get_frames (scope_ds2 false false) reads) in
  prev_frame_seq_id self = seq_id (frame_statistics self)
  /\ 0 <= seq_id (frame_statistics self) < 2 ^ 36.
Proof.
  cbv zeta.
  destruct (tracker_invariant 2 false false (scope_ds2 false false)
              [(true, raw_of_frame16 (frame_ds2 2 (header_row_ds2 0 0x640 0 0 0)));
               (false, []);
               (true, raw_of_frame16 (frame_ds2 2 (header_row_ds2 0 0x690 0 0 0)))]
              eq_refl) as (Hp & Hc & _).
  split; [exact Hp | exact Hc].
Defined.

(** ** What the statistics depend on *)

(** With the gate on, a delivered frame always comes with statistics
    decoded from that very frame: they are marked as recording, hold the
    counter the tracker has just moved to, and the gap from the previous
    counter. *)
Theorem synced_delivery_is_recording (self : isx_scope) (ret : bool)
    (raw : list (list byte)) (st : statistics) (frame : frame16_t) :
  sync_with_recording self = true ->
  fst (get_frame self ret raw) = Some (st, frame) ->
  isxd_record st = true
  /\ st = frame_statistics (snd (get_frame self ret raw))
  /\ seq_id st = prev_frame_seq_id (snd (get_frame self ret raw))
  /\ missing_frames_range st = missing_range (prev_frame_seq_id self) (seq_id st).
Proof.
  intros Hsync. destruct ret; [|discriminate].
  destruct (view_uint16 raw) as [frame16|e] eqn:Hv;
    [|rewrite (get_frame_unreadable self raw) by (left; eauto); discriminate].
  destruct (np_index frame16 (header_row_with_meta (geom self))) as [row|e] eqn:Hr;
    [|rewrite (get_frame_unreadable self raw)
        by (right; exists frame16, e; auto); discriminate].
  rewrite (get_frame_read self raw frame16 row Hv Hr). unfold deliver.
  rewrite Hsync. cbn [andb].
  destruct (update_frame_stats_cases self row)
    as [[_ Hu]|(s0 & s1 & s2 & s3 & fb & R0 & R1 & R2 & R3 & Rf)].
  - rewrite Hu. discriminate.
  - rewrite (update_frame_stats_decoded self row s0 s1 s2 s3 fb R0 R1 R2 R3 Rf).
    cbn [fst snd].
    destruct (fb =? frame_record_flag_value (geom self)) eqn:Hfb;
      cbn [negb]; [|discriminate].
    intros [= <- _].
    destruct (file_storage self); cbn; repeat split.
Qed.

Lemma synced_delivery_is_recording_witness :
  let r := get_frame (set_prev (scope_ds2 false true) 98) true
             (raw_of_frame16 (frame_ds2 2 (header_row_ds2 0xAD0 0x640 0 0 0))) in
  fst r = Some ({| missing_frames_range := [99; 99]; seq_id := 100;
                   isxd_record := true |}, [])
  /\ prev_frame_seq_id (snd r) = 100.
Proof.
  cbv zeta.
  assert (Hout : fst (get_frame (set_prev (scope_ds2 false true) 98) true
                        (raw_of_frame16
                           (frame_ds2 2 (header_row_ds2 0xAD0 0x640 0 0 0))))
                 = Some ({| missing_frames_range := [99; 99]; seq_id := 100;
                            isxd_record := true |}, []))
    by (vm_compute; reflexivity).
  split; [exact Hout|].
  destruct (synced_delivery_is_recording (set_prev (scope_ds2 false true) 98)
              true _ _ _ eq_refl Hout) as (_ & _ & Hp & _).
  symmetry. exact Hp.
Defined.

(** The statistics and the gate read nothing but five samples of the
    meta row, and of the four counter samples only the bits above the
    low four: two buffers whose meta rows agree on these leave the same
    tracker state and statistics and get the same delivery decision,
    whatever the rest of the buffers holds. *)
Theorem statistics_depend_on_header_fields
    (self : isx_scope)
    (raw : list (list byte)) (f : frame16_t) (row : list Z) (s0 s1 s2 s3 fb : Z)
    (raw' : list (list byte)) (f' : frame16_t) (row' : list Z) (t0 t1 t2 t3 : Z) :
  view_uint16 raw = Ok f ->
  np_index f (header_row_with_meta (geom self)) = Ok row ->
  np_index row (frame_counter_offset (geom self)) = Ok s0 ->
  np_index row (frame_counter_offset (geom self) + 1) = Ok s1 ->
  np_index row (frame_counter_offset (geom self) + 2) = Ok s2 ->
  np_index row (frame_counter_offset (geom self) + 3) = Ok s3 ->
  np_index row (frame_record_flag_offset (geom self)) = Ok fb ->
  view_uint16 raw' = Ok f' ->
  np_index f' (header_row_with_meta (geom self)) = Ok row' ->
  np_index row' (frame_counter_offset (geom self)) = Ok t0 ->
  np_index row' (frame_counter_offset (geom self) + 1) = Ok t1 ->
  np_index row' (frame_counter_offset (geom self) + 2) = Ok t2 ->
  np_index row' (frame_counter_offset (geom self) + 3) = Ok t3 ->
  np_index row' (frame_record_flag_offset (geom self)) = Ok fb ->
  Z.shiftr s0 4 = Z.shiftr t0 4 -> Z.shiftr s1 4 = Z.shiftr t1 4 ->
  Z.shiftr s2 4 = Z.shiftr t2 4 -> Z.shiftr s3 4 = Z.shiftr t3 4 ->
  let r := get_frame self true raw in
  let r' := get_frame self true raw' in
  frame_statistics (snd r) = frame_statistics (snd r')
  /\ prev_frame_seq_id (snd r) = prev_frame_seq_id (snd r')
  /\ (fst r = None <-> fst r' = None).
Proof.
  intros Hv Hr R0 R1 R2 R3 Rf Hv' Hr' T0 T1 T2 T3 Tf E0 E1 E2 E3. cbv zeta.
  rewrite (get_frame_read self raw f row Hv Hr).
  rewrite (get_frame_read self raw' f' row' Hv' Hr').
  destruct (deliver_statistics self f row) as [-> ->].
  destruct (deliver_statistics self f' row') as [-> ->].
  unfold deliver.
  rewrite (update_frame_stats_decoded self row s0 s1 s2 s3 fb R0 R1 R2 R3 Rf).
  rewrite (update_frame_stats_decoded self row' t0 t1 t2 t3 fb T0 T1 T2 T3 Tf).
  assert (Hc : counter_exact s0 s1 s2 s3 = counter_exact t0 t1 t2 t3).
  { unfold counter_exact. rewrite E0, E1, E2, E3. reflexivity. }
  rewrite Hc. cbn [fst snd].
  split; [reflexivity|]. split; [reflexivity|].
  destruct (sync_with_recording self && negb (fb =? frame_record_flag_value (geom self)));
    cbn [fst]; split; (reflexivity || discriminate).
Qed.

Lemma statistics_depend_on_header_fields_witness :
  let r := get_frame (scope_ds2 false true) true
             (raw_of_frame16 (frame_ds2 2 (header_row_ds2 0xAD0 0x640 0 0 0))) in
  let r' := get_frame (scope_ds2 false true) true
              (raw_of_frame16 (frame_ds2 3 (header_row_ds2 0xAD0 0x64F 7 0 0xF))) in
  frame_statistics (snd r) = frame_statistics (snd r')
  /\ prev_frame_seq_id (snd r) = prev_frame_seq_id (snd r')
  /\ (fst r = None <-> fst r' = None).
Proof.
  assert (Hv : view_uint16
                 (raw_of_frame16 (frame_ds2 2 (header_row_ds2 0xAD0 0x640 0 0 0)))
               = Ok (frame_ds2 2 (header_row_ds2 0xAD0 0x640 0 0 0)))
    by (vm_compute; reflexivity).
  assert (Hv' : view_uint16
                  (raw_of_frame16 (frame_ds2 3 (header_row_ds2 0xAD0 0x64F 7 0 0xF)))
                = Ok (frame_ds2 3 (header_row_ds2 0xAD0 0x64F 7 0 0xF)))
    by (vm_compute; reflexivity).
  exact (statistics_depend_on_header_fields (scope_ds2 false true)
           _ _ (header_row_ds2 0xAD0 0x640 0 0 0) 0x640 0 0 0 0xAD0
           _ _ (header_row_ds2 0xAD0 0x64F 7 0 0xF) 0x64F 7 0 0xF
           Hv eq_refl eq_refl eq_refl eq_refl eq_refl eq_refl
           Hv' eq_refl eq_refl eq_refl eq_refl eq_refl eq_refl
           eq_refl eq_refl eq_refl eq_refl).
Defined.
